(** * PSX market-watch scraper: a shallow embedding of [scrap.py]

    The development follows the source file top to bottom: the Python
    built-ins the program relies on ([str] methods, [float], [int],
    [str(float)]), the record normaliser ([clean_numeric_value],
    [validate_stock_data]), the persistence gateway ([save_to_postgresql]),
    the extraction chain and the window scheduler.

    Conventions.
    - A Python [str] is a [string]; the page text is ASCII and the only
      non-ASCII character of the program, the rupee sign, is carried as its
      UTF-8 bytes.  Whitespace and digits are the ASCII ones.
    - A Python [float] is a binary64 number, [spec_float] of the standard
      library with [prec = 53] and [emax = 1024].
    - An exception is an explicit result: [Raise e].
    - The table [psx_data] holds what the server makes of the parameters of
      an insert statement, by the column types of [setup_database]; a
      statement the server rejects aborts the transaction. *)

From Stdlib Require Import ZArith String Ascii List Bool Lia.
From Stdlib Require Import Floats.SpecFloat.
From stdpp Require Import gmap strings.

Local Open Scope string_scope.
Local Open Scope Z_scope.

(** ** Exceptions as results *)

Inductive pyexn : Set :=
  | ValueError
  | OverflowError
  | TypeError
  | WebDriverException
  | DatabaseError.      (* any [psycopg2.Error] *)

Inductive res (A : Type) : Type :=
  | Ret (a : A)
  | Raise (e : pyexn).

Arguments Ret {A} a.
Arguments Raise {A} e.

Definition rbind {A B : Type} (m : res A) (k : A -> res B) : res B :=
  match m with
  | Ret a => k a
  | Raise e => Raise e
  end.

(** [try: m except: h] runs [m]; any exception is handled by [h]. *)
Definition try_except {A : Type} (m : res A) (h : pyexn -> res A) : res A :=
  match m with
  | Ret a => Ret a
  | Raise e => h e
  end.

#[global] Instance res_ret : MRet res := fun A a => Ret a.
#[global] Instance res_bind : MBind res := fun A B k m => rbind m k.

(** ** Python string methods *)

Module PyStr.

(** [str.isspace] on one ASCII character: tab, line feed, vertical tab, form
    feed, carriage return, the four separators 28..31 and the space. *)
Definition is_space (c : ascii) : bool :=
  let n := N_of_ascii c in
  ((9 <=? n) && (n <=? 13) || (28 <=? n) && (n <=? 32))%N.

Definition is_digit (c : ascii) : bool :=
  let n := N_of_ascii c in ((48 <=? n) && (n <=? 57))%N.

Definition is_empty (s : string) : bool :=
  match s with EmptyString => true | String _ _ => false end.

(** [s.lstrip()] *)
Fixpoint lstrip (s : string) : string :=
  match s with
  | EmptyString => EmptyString
  | String c r => if is_space c then lstrip r else s
  end.

(** [s.rstrip()] *)
Fixpoint rstrip (s : string) : string :=
  match s with
  | EmptyString => EmptyString
  | String c r =>
      let r' := rstrip r in
      if is_empty r' && is_space c then EmptyString else String c r'
  end.

(** [s.strip()] *)
Definition strip (s : string) : string := lstrip (rstrip s).

(** The whitespace of JavaScript's [trim()] and of C's [isspace], which
    [float] skips around a number: tab, line feed, vertical tab, form feed,
    carriage return and the space, but not the separators 28..31. *)
Definition is_blank (c : ascii) : bool :=
  let n := N_of_ascii c in
  ((9 <=? n) && (n <=? 13) || (n =? 32))%N.

Fixpoint trim_start (s : string) : string :=
  match s with
  | EmptyString => EmptyString
  | String c r => if is_blank c then trim_start r else s
  end.

Fixpoint trim_end (s : string) : string :=
  match s with
  | EmptyString => EmptyString
  | String c r =>
      let r' := trim_end r in
      if is_empty r' && is_blank c then EmptyString else String c r'
  end.

(** [s.trim()] of JavaScript *)
Definition trim (s : string) : string := trim_start (trim_end s).

(** [s.startswith(p)] *)
Fixpoint startswith (p s : string) : bool :=
  match p, s with
  | EmptyString, _ => true
  | String _ _, EmptyString => false
  | String a p', String b s' => Ascii.eqb a b && startswith p' s'
  end.

(** [sub in s] for a non-empty [sub] (and for the empty one). *)
Fixpoint contains (sub s : string) : bool :=
  startswith sub s ||
  match s with
  | EmptyString => false
  | String _ r => contains sub r
  end.

(** [s.replace(old, new)] for a non-empty [old]: the leftmost occurrences,
    not overlapping.  [skip] counts the characters of a match still to be
    dropped. *)
Fixpoint replace_from (old new : string) (skip : nat) (s : string) : string :=
  match s with
  | EmptyString => EmptyString
  | String c r =>
      match skip with
      | S k => replace_from old new k r
      | O =>
          if startswith old s
          then new ++ replace_from old new (Nat.pred (String.length old)) r
          else String c (replace_from old new O r)
      end
  end.

Definition replace (old new s : string) : string := replace_from old new O s.

(** [s[1:]] *)
Definition tail (s : string) : string :=
  match s with EmptyString => EmptyString | String _ r => r end.

(** [x in [a, b, ...]] on strings *)
Fixpoint str_in (x : string) (l : list string) : bool :=
  match l with
  | nil => false
  | y :: l' => String.eqb x y || str_in x l'
  end.

(** ASCII lower-casing, as [float] does when it looks for [inf] and [nan]. *)
Definition lower_char (c : ascii) : ascii :=
  let n := N_of_ascii c in
  if ((65 <=? n) && (n <=? 90))%N then ascii_of_N (n + 32) else c.

Fixpoint lower (s : string) : string :=
  match s with
  | EmptyString => EmptyString
  | String c r => String (lower_char c) (lower r)
  end.

End PyStr.

(** ** Python floats: [float(s)], [str(x)], [int(x)] and comparisons *)

Module PyFloat.

Import PyStr.

Definition prec : Z := 53.
Definition emax : Z := 1024.

(** *** Decimal digits *)

Definition digit_char (d : nat) : ascii :=
  match d with
  | 0%nat => "0" | 1%nat => "1" | 2%nat => "2" | 3%nat => "3" | 4%nat => "4"
  | 5%nat => "5" | 6%nat => "6" | 7%nat => "7" | 8%nat => "8" | _ => "9"
  end%char.

Definition digit_val (c : ascii) : Z := Z.of_N (N_of_ascii c) - 48.

(** The longest prefix of digits and what follows it. *)
Fixpoint span_digits (s : string) : string * string :=
  match s with
  | EmptyString => (EmptyString, EmptyString)
  | String c r =>
      if is_digit c
      then let '(ds, rest) := span_digits r in (String c ds, rest)
      else (EmptyString, s)
  end.

Fixpoint digits_value (acc : Z) (s : string) : Z :=
  match s with
  | EmptyString => acc
  | String c r => digits_value (10 * acc + digit_val c) r
  end.

(** The decimal digits of [n], most significant first; [fuel] bounds their
    number. *)
Fixpoint digits_of (fuel : nat) (n : Z) (acc : string) : string :=
  match fuel with
  | O => acc
  | S k =>
      let acc' := String (digit_char (Z.to_nat (n mod 10))) acc in
      if (n / 10 =? 0)%Z then acc' else digits_of k (n / 10) acc'
  end.

Definition decimal (n : Z) : string :=
  digits_of (S (Z.to_nat (Z.log2 n))) n EmptyString.

Fixpoint zeros (n : nat) : string :=
  match n with O => EmptyString | S k => String "0" (zeros k) end.

(** Trailing zeros removed, but never the whole string. *)
Fixpoint strip_zeros (s : string) : string :=
  match s with
  | EmptyString => EmptyString
  | String c r =>
      let r' := strip_zeros r in
      if is_empty r' && Ascii.eqb c "0" then EmptyString else String c r'
  end.

Definition significant (s : string) : string :=
  match strip_zeros s with
  | EmptyString => "0"
  | t => t
  end.

(** *** Rounding a decimal to binary64 *)

(** [of_decimal sg d k] is the binary64 number nearest to [d * 10^k] (ties to
    even), with the sign [sg].  Exponents far outside the range of binary64
    are cut off first: from [10^310] on the result is infinite, below
    [10^-330] it is zero. *)
Definition of_decimal (sg : bool) (d : Z) (k : Z) : spec_float :=
  if (d <=? 0)%Z then S754_zero sg
  else
    let nd := Z.of_nat (String.length (decimal d)) in
    if (310 <? k + nd)%Z then S754_infinity sg
    else if (k + nd <? -330)%Z then S754_zero sg
    else
      let m1 := if (0 <=? k)%Z then d * 10 ^ k else d in
      let m2 := if (0 <=? k)%Z then 1 else 10 ^ (- k) in
      let '(q, e, l) := SFdiv_core_binary prec emax m1 0 m2 0 in
      binary_round_aux prec emax sg q e l.

(** *** [float(s)] *)

(** Underscores may only stand between two digits; they are dropped. *)
Fixpoint drop_underscores (prev : ascii) (s : string) : option string :=
  match s with
  | EmptyString => if Ascii.eqb prev "_" then None else Some EmptyString
  | String c r =>
      if Ascii.eqb c "_"
      then if is_digit prev then drop_underscores c r else None
      else if Ascii.eqb prev "_" && negb (is_digit c) then None
      else option_map (String c) (drop_underscores c r)
  end.

Definition split_sign (s : string) : bool * string :=
  match s with
  | String "-" r => (true, r)
  | String "+" r => (false, r)
  | _ => (false, s)
  end.

Definition special (sg : bool) (body : string) : option spec_float :=
  let b := lower body in
  if String.eqb b "inf" || String.eqb b "infinity" then Some (S754_infinity sg)
  else if String.eqb b "nan" then Some S754_nan
  else None.

(** The exponent part: [e] or [E], an optional sign, at least one digit. *)
Definition scan_exponent (s : string) : option Z :=
  match s with
  | EmptyString => Some 0
  | String c r =>
      if Ascii.eqb c "e" || Ascii.eqb c "E" then
        let '(sg, r') := split_sign r in
        let '(ds, rest) := span_digits r' in
        if is_empty ds || negb (is_empty rest) then None
        else Some (if sg then - digits_value 0 ds else digits_value 0 ds)
      else None
  end.

(** A decimal literal: digits, an optional point and digits, an optional
    exponent; at least one digit in the mantissa.  The result is the pair
    [(d, k)] of the value [d * 10^k]. *)
Definition scan_decimal (s : string) : option (Z * Z) :=
  let '(ip, r1) := span_digits s in
  let '(fp, r2) :=
    match r1 with
    | String "." r => span_digits r
    | _ => (EmptyString, r1)
    end in
  if is_empty ip && is_empty fp then None
  else
    match scan_exponent r2 with
    | None => None
    | Some ex =>
        Some (digits_value 0 (ip ++ fp), ex - Z.of_nat (String.length fp))
    end.

Definition parse (s : string) : res spec_float :=
  match drop_underscores "."%char s with
  | None => Raise ValueError
  | Some t =>
      let '(sg, body) := split_sign t in
      match special sg body with
      | Some x => Ret x
      | None =>
          match scan_decimal body with
          | Some (d, k) => Ret (of_decimal sg d k)
          | None => Raise ValueError
          end
      end
  end.

(** [float(s)]: the whitespace around the number is ignored, which for
    [float] is that of C's [isspace] (a separator 28..31 is not skipped);
    a string that is not a number raises [ValueError]. *)
Definition float (s : string) : res spec_float := parse (trim s).

(** *** [str(x)]: the shortest decimal that reads back as [x] *)

Definition sf_eqb (x y : spec_float) : bool :=
  match x, y with
  | S754_zero a, S754_zero b => Bool.eqb a b
  | S754_infinity a, S754_infinity b => Bool.eqb a b
  | S754_nan, S754_nan => true
  | S754_finite a m e, S754_finite b n f =>
      Bool.eqb a b && Pos.eqb m n && Z.eqb e f
  | _, _ => false
  end.

(** The positive rational [num/den] against a power of ten. *)
Definition below_pow10 (num den p : Z) : bool :=
  if (0 <=? p)%Z then (num <? den * 10 ^ p)%Z else (num * 10 ^ (- p) <? den)%Z.

(** The least [p] from [p0] on with [num/den < 10^p]. *)
Fixpoint scan_exponent10 (fuel : nat) (num den p0 : Z) : Z :=
  match fuel with
  | O => p0
  | S k => if below_pow10 num den p0 then p0
           else scan_exponent10 k num den (p0 + 1)
  end.

(** The [p] with [10^(p-1) <= num/den < 10^p]. *)
Definition exponent10 (num den : Z) : Z :=
  let est := ((Z.log2 num - Z.log2 den - 1) * 30103) / 100000 - 1 in
  scan_exponent10 8 num den est.

(** The two decimals of [n] digits around [num/den], and whether the upper
    one is the nearer (ties go to the even one). *)
Definition neighbours (num den p : Z) (n : Z) : Z * Z * bool :=
  let s := n - p in
  let a := if (0 <=? s)%Z then num * 10 ^ s else num in
  let b := if (0 <=? s)%Z then den else den * 10 ^ (- s) in
  let lo := a / b in
  let r := a mod b in
  (lo, lo + 1, (b <? 2 * r)%Z || ((b =? 2 * r)%Z && Z.odd lo)).

(** The shortest decimal [c * 10^(p-n)] that [of_decimal] reads back as
    [x = num/den], the nearest one when two of that length do; seventeen
    digits always suffice for binary64. *)
Fixpoint shortest (fuel : nat) (x : spec_float) (num den p n : Z) : Z * Z :=
  let '(lo, hi, upper) := neighbours num den p n in
  match fuel with
  | O => (if upper then hi else lo, n)
  | S k =>
      let ok_lo := sf_eqb (of_decimal false lo (p - n)) x in
      let ok_hi := sf_eqb (of_decimal false hi (p - n)) x in
      if ok_lo && ok_hi then (if upper then hi else lo, n)
      else if ok_lo then (lo, n)
      else if ok_hi then (hi, n)
      else shortest k x num den p (n + 1)
  end.

(** The digits of [m * 2^e] and the position of the decimal point:
    [0.d1d2... * 10^decpt]. *)
Definition digits_and_point (m : positive) (e : Z) : string * Z :=
  let num := if (0 <=? e)%Z then Zpos m * 2 ^ e else Zpos m in
  let den := if (0 <=? e)%Z then 1 else 2 ^ (- e) in
  let p := exponent10 num den in
  let '(c, n) := shortest 16 (S754_finite false m e) num den p 1 in
  let ds := decimal c in
  (significant ds, Z.of_nat (String.length ds) + p - n).

Definition pad2 (s : string) : string :=
  match s with
  | String c EmptyString => String "0" s
  | _ => s
  end.

Definition exponent_form (ds : string) (decpt : Z) : string :=
  let mant :=
    match ds with
    | String c (String d r) => String c (String "." (String d r))
    | _ => ds
    end in
  let ex := decpt - 1 in
  mant ++ "e" ++ (if (ex <? 0)%Z then "-" else "+") ++ pad2 (decimal (Z.abs ex)).

Definition fixed_form (ds : string) (decpt : Z) : string :=
  let nd := Z.of_nat (String.length ds) in
  if (decpt <=? 0)%Z then "0." ++ zeros (Z.to_nat (- decpt)) ++ ds
  else if (nd <=? decpt)%Z then ds ++ zeros (Z.to_nat (decpt - nd)) ++ ".0"
  else substring 0 (Z.to_nat decpt) ds ++ "." ++
       substring (Z.to_nat decpt) (Z.to_nat (nd - decpt)) ds.

(** The [repr] format: exponent notation when the point lies outside
    [(-4, 16]], otherwise positional with at least one digit after the
    point. *)
Definition format_short (ds : string) (decpt : Z) : string :=
  if (decpt <=? -4)%Z || (16 <? decpt)%Z
  then exponent_form ds decpt
  else fixed_form ds decpt.

(** [str(x)] for a float [x]. *)
Definition str (x : spec_float) : string :=
  match x with
  | S754_nan => "nan"
  | S754_infinity sg => if sg then "-inf" else "inf"
  | S754_zero sg => if sg then "-0.0" else "0.0"
  | S754_finite sg m e =>
      let '(ds, decpt) := digits_and_point m e in
      (if sg then "-" else "") ++ format_short ds decpt
  end.

(** *** [int(x)] and comparisons *)

(** [int(x)] truncates toward zero; an infinity raises [OverflowError], a
    NaN raises [ValueError]. *)
Definition int (x : spec_float) : res Z :=
  match x with
  | S754_nan => Raise ValueError
  | S754_infinity _ => Raise OverflowError
  | S754_zero _ => Ret 0
  | S754_finite sg m e =>
      let mag := if (0 <=? e)%Z then Zpos m * 2 ^ e else Zpos m / 2 ^ (- e) in
      Ret (if sg then - mag else mag)
  end.

(** The float of a Python [int] literal. *)
Definition of_int (n : Z) : spec_float := binary_normalize prec emax n 0 false.

(** [x <= y] and [x > y]; both are false as soon as a NaN is involved. *)
Definition le (x y : spec_float) : bool := SFleb x y.
Definition gt (x y : spec_float) : bool := SFltb y x.

(** *** The shape of a float literal *)

Fixpoint all_digits (s : string) : bool :=
  match s with
  | EmptyString => true
  | String c r => is_digit c && all_digits r
  end.

(** The characters [str] writes for a finite number. *)
Definition numeric_char (c : ascii) : bool :=
  is_digit c || Ascii.eqb c "." || Ascii.eqb c "e" || Ascii.eqb c "+"
  || Ascii.eqb c "-".

Fixpoint numeric (s : string) : bool :=
  match s with
  | EmptyString => true
  | String c r => numeric_char c && numeric r
  end.

(** The text cannot prolong a run of digits. *)
Definition no_leading_digit (s : string) : bool :=
  match s with
  | EmptyString => true
  | String c _ => negb (is_digit c)
  end.

(** A literal by its parts: the integer digits, the fraction digits when
    there is a point, the sign and digits of the exponent when there is
    one. *)
Definition literal (ip : string) (fp : option string)
    (ex : option (bool * string)) : string :=
  ip ++ match fp with Some f => "." ++ f | None => "" end
     ++ match ex with
        | Some (neg, xs) => "e" ++ (if neg then "-" else "+") ++ xs
        | None => ""
        end.

(** The parts are well formed: digits only, at least one integer digit and
    one exponent digit. *)
Definition literal_ok (ip : string) (fp : option string)
    (ex : option (bool * string)) : bool :=
  all_digits ip && negb (is_empty ip)
  && match fp with Some f => all_digits f | None => true end
  && match ex with
     | Some (_, xs) => all_digits xs && negb (is_empty xs)
     | None => true
     end.

End PyFloat.

(** ** Records scraped from the page *)

(** One table row as the extraction chain builds it: eleven text fields. *)
Record stock : Type := mk_stock {
  symbol : string;
  sector : string;
  listed_in : string;
  ldcp : string;
  open : string;
  high : string;
  low : string;
  current : string;
  change : string;
  change_percent : string;
  volume : string
}.

(** ** Record normaliser *)

Module Normalizer.

Import PyStr.

(** The rupee sign U+20A8, as its three UTF-8 bytes. *)
Definition rupee : string :=
  String (ascii_of_N 226) (String (ascii_of_N 130)
    (String (ascii_of_N 168) EmptyString)).

Definition sentinels : list string :=
  "N/A" :: "-" :: "" :: " " :: "NAN" :: "NULL" :: "N/S" :: "N.S" :: "n/s" :: nil.

(** The text handed to [float]: the value stripped, freed of separators,
    percent signs, parentheses and currency marks, doubled dashes turned
    into a zero, and the blanks after a leading minus removed. *)
Definition cleaned (value : string) : string :=
  let c := strip value in
  let c := replace "%" "" (replace " " "" (replace "," "" c)) in
  let c := replace "$" "" (replace ")" "" (replace "(" "" c)) in
  let c := replace rupee "" (replace "PKR" "" (replace "Rs." "" c)) in
  let c := replace "---" "0" (replace "--" "0" c) in
  if startswith "-" c then "-" ++ lstrip (tail c) else c.

(** The body of the [try] block of [clean_numeric_value]. *)
Definition clean_numeric_try (value : string) : res string :=
  let c := cleaned value in
  if is_empty c || String.eqb c "-" then Ret "0"
  else x ← PyFloat.float c; Ret (PyFloat.str x).

(** [clean_numeric_value(value)] *)
Definition clean_numeric_value_res (value : string) : res string :=
  if is_empty value || str_in value sentinels then Ret "0"
  else try_except (clean_numeric_try value) (fun _ => Ret "0").

(** [clean_numeric_value_res] never raises (see
    [clean_numeric_value_returns] below), so the value it returns is a
    plain string. *)
Definition clean_numeric_value (value : string) : string :=
  match clean_numeric_value_res value with
  | Ret s => s
  | Raise _ => "0"
  end.

(** The body of the [try] block of [validate_stock_data]. *)
Definition validate_try (st : stock) : res bool :=
  if is_empty (symbol st) || (20 <? String.length (symbol st))%nat
  then Ret false
  else
    current_price ← PyFloat.float (clean_numeric_value (current st));
    if PyFloat.le current_price (PyFloat.of_int 0)
       || PyFloat.gt current_price (PyFloat.of_int 100000)
    then Ret false
    else Ret true.

(** [validate_stock_data(stock)] *)
Definition validate_stock_data (st : stock) : bool :=
  match try_except (validate_try st) (fun _ => Ret false) with
  | Ret b => b
  | Raise _ => false
  end.

(** The acceptance rule in the words of the specification: a symbol of 1 to
    20 characters and a cleaned [current] strictly greater than 0 and at
    most 100000. *)
Definition spec_in_range (x : spec_float) : bool :=
  PyFloat.gt x (PyFloat.of_int 0) && PyFloat.le x (PyFloat.of_int 100000).

Definition spec_accepts (st : stock) : bool :=
  negb (is_empty (symbol st)) && (String.length (symbol st) <=? 20)%nat &&
  match PyFloat.float (clean_numeric_value (current st)) with
  | Ret x => spec_in_range x
  | Raise _ => false
  end.

(** Sample records: the symbol [ABC] with a given [current] and [volume]. *)
Definition sample (cur vol : string) : stock :=
  mk_stock "ABC" "CEMENT" "KSE100" "149.00" "149.50" "151.00" "148.75"
           cur "1.25" "0.84" vol.

End Normalizer.

(** ** Wall-clock time in Asia/Karachi *)

(** A [datetime] in the fixed civil timezone of the program: the proleptic
    Gregorian ordinal of the day ([date.toordinal()]) and the time of day.
    The zone has no daylight saving time, so [timedelta] arithmetic is
    arithmetic on the wall clock. *)
Record datetime : Type := mk_datetime {
  ordinal : Z;
  hour : Z;
  minute : Z;
  second : Z;
  microsecond : Z
}.

#[global] Instance datetime_eq_dec : EqDecision datetime.
Proof. solve_decision. Defined.

#[global] Instance datetime_countable : Countable datetime.
Proof.
  refine (inj_countable'
    (fun d => (ordinal d, hour d, minute d, second d, microsecond d))
    (fun t => let '(o, h, m, s, u) := t in mk_datetime o h m s u) _).
  intros []; reflexivity.
Defined.

Module Clock.

(** The fields are in range, as they are in every Python [datetime]. *)
Definition wf (d : datetime) : Prop :=
  0 <= hour d < 24 /\ 0 <= minute d < 60 /\ 0 <= second d < 60 /\
  0 <= microsecond d < 1000000.

Definition us_per_minute : Z := 60000000.
Definition us_per_day : Z := 86400000000.

(** Microseconds since the start of day 0. *)
Definition to_us (d : datetime) : Z :=
  ordinal d * us_per_day
  + ((hour d * 60 + minute d) * 60 + second d) * 1000000 + microsecond d.

Definition of_us (t : Z) : datetime :=
  let r := t mod us_per_day in
  mk_datetime (t / us_per_day) (r / 3600000000) (r / us_per_minute mod 60)
              (r / 1000000 mod 60) (r mod 1000000).

(** [d + timedelta(days=days, minutes=minutes)] *)
Definition add_timedelta (d : datetime) (days minutes : Z) : datetime :=
  of_us (to_us d + days * us_per_day + minutes * us_per_minute).

(** [d.replace(hour=h, minute=m, second=0, microsecond=0)] *)
Definition replace_time (d : datetime) (h m : Z) : datetime :=
  mk_datetime (ordinal d) h m 0 0.

(** [d.replace(second=0, microsecond=0)] *)
Definition replace_seconds (d : datetime) : datetime :=
  mk_datetime (ordinal d) (hour d) (minute d) 0 0.

(** [d.weekday()]: Monday is 0, Sunday is 6. *)
Definition weekday (d : datetime) : Z := (ordinal d + 6) mod 7.

(** [a <= b] and [a < b] on datetimes of the same zone. *)
Definition leb (a b : datetime) : bool := to_us a <=? to_us b.
Definition ltb (a b : datetime) : bool := to_us a <? to_us b.

End Clock.

(** ** Window scheduler *)

Module Scheduler.

Import Clock.

(** [PSX_MARKET_OPEN], [PSX_MARKET_CLOSE] after
    [map(int, ....split(':'))], and [SCRAPE_INTERVAL_MINUTES]. *)
Definition PSX_MARKET_OPEN : Z * Z := (9, 30).
Definition PSX_MARKET_CLOSE : Z * Z := (15, 30).
Definition SCRAPE_INTERVAL_MINUTES : Z := 5.

(** [is_market_open()], with the clock reading [now_pk] as its input. *)
Definition is_market_open (now_pk : datetime) : bool :=
  if 5 <=? weekday now_pk then false
  else
    let '(open_hour, open_minute) := PSX_MARKET_OPEN in
    let '(close_hour, close_minute) := PSX_MARKET_CLOSE in
    let market_open := replace_time now_pk open_hour open_minute in
    let market_close := replace_time now_pk close_hour close_minute in
    leb market_open now_pk && leb now_pk market_close.

(** [get_next_scrape_time()], with the clock reading [now_pk] as its input. *)
Definition get_next_scrape_time (now_pk : datetime) : datetime :=
  let minutes_to_add :=
    (SCRAPE_INTERVAL_MINUTES - minute now_pk mod SCRAPE_INTERVAL_MINUTES)
      mod SCRAPE_INTERVAL_MINUTES in
  let minutes_to_add :=
    if minutes_to_add =? 0 then SCRAPE_INTERVAL_MINUTES else minutes_to_add in
  let next_time := add_timedelta now_pk 0 minutes_to_add in
  replace_seconds next_time.

(** The loop [while tomorrow.weekday() >= 5: tomorrow += timedelta(days=1)];
    [None] when the fuel runs out before the loop ends. *)
Fixpoint skip_weekend (fuel : nat) (tomorrow : datetime) : option datetime :=
  if 5 <=? weekday tomorrow then
    match fuel with
    | O => None
    | S k => skip_weekend k (add_timedelta tomorrow 1 0)
    end
  else Some tomorrow.

(** The closed-market branch of [run_and_schedule]: the instant the
    scheduler sleeps until, logged as the next market open. *)
Definition next_open (fuel : nat) (now_pk : datetime) : option datetime :=
  let tomorrow := add_timedelta now_pk 1 0 in
  tomorrow ← skip_weekend fuel tomorrow;
  let '(open_hour, open_minute) := PSX_MARKET_OPEN in
  Some (replace_time tomorrow open_hour open_minute).

(** The sample clock readings used in the properties: Monday 2024-01-01 (ordinal
    738886) at 08:00, before the market opens, and at 10:05 sharp. *)
Definition monday_0800 : datetime := mk_datetime 738886 8 0 0 0.
Definition monday_1005 : datetime := mk_datetime 738886 10 5 0 0.

End Scheduler.

(** ** Persistence gateway *)

Module Persistence.

Import PyStr Normalizer.

(** A numeric parameter of the insert: the [int] literal [0] or a float. *)
Inductive number : Type :=
  | Int (z : Z)
  | Float (x : spec_float).

(** The parameters of one insert statement besides the key
    [(scrape_timestamp, symbol)], as they are handed to [cur.execute]. *)
Record row : Type := mk_row {
  row_sector : string;
  row_listed_in : string;
  row_ldcp : number;
  row_open : number;
  row_high : number;
  row_low : number;
  row_current : number;
  row_change : number;
  row_change_percent : number;
  row_volume : Z
}.

(** [float(clean_numeric_value(v)) if clean_numeric_value(v) != '0' else 0] *)
Definition price_param (v : string) : res number :=
  if negb (String.eqb (clean_numeric_value v) "0")
  then x ← PyFloat.float (clean_numeric_value v); Ret (Float x)
  else Ret (Int 0).

(** [int(float(clean_numeric_value(v))) if clean_numeric_value(v) != '0' else 0] *)
Definition volume_param (v : string) : res Z :=
  if negb (String.eqb (clean_numeric_value v) "0")
  then x ← PyFloat.float (clean_numeric_value v); PyFloat.int x
  else Ret 0.

(** The tuple [row_data]; building it raises when a conversion does. *)
Definition row_data (item : stock) : res row :=
  v_ldcp ← price_param (ldcp item);
  v_open ← price_param (open item);
  v_high ← price_param (high item);
  v_low ← price_param (low item);
  v_current ← price_param (current item);
  v_change ← price_param (change item);
  v_change_percent ← price_param (change_percent item);
  v_volume ← volume_param (volume item);
  Ret (mk_row (sector item) (listed_in item) v_ldcp v_open v_high v_low
              v_current v_change v_change_percent v_volume).

(** *** The table [psx_data] *)

(** A [DECIMAL(p, 2)] value as the server keeps it: a whole number of
    hundredths, or NaN. *)
Inductive decimal2 : Type :=
  | Hundredths (n : Z)
  | NaN.

(** The columns of one row of [psx_data] besides its key; [id] and
    [created_at] are the server's. *)
Record stored_row : Type := mk_stored {
  col_sector : string;
  col_listed_in : string;
  col_ldcp : decimal2;
  col_open : decimal2;
  col_high : decimal2;
  col_low : decimal2;
  col_current : decimal2;
  col_change : decimal2;
  col_change_percent : decimal2;
  col_volume : Z
}.

(** The table, by its uniqueness constraint [UNIQUE(scrape_timestamp, symbol)]. *)
Abbreviation table := (gmap (datetime * string) stored_row).

(** [d * 10^k] for [0 <= d], rounded to a whole number, a half going away
    from zero, as the server rounds a numeric. *)
Definition round_half_away (d k : Z) : Z :=
  if 0 <=? k then d * 10 ^ k
  else
    let q := 10 ^ (- k) in
    d / q + (if q <=? 2 * (d mod q) then 1 else 0).

(** A numeric parameter in a column [DECIMAL(p, 2)].  psycopg2 writes an
    [int] as its digits, a float as [repr] does, and a NaN or an infinity as
    a quoted float8 literal.  The server reads the digits as they are,
    rounds to two decimals and raises when more than [p - 2] digits are left
    before the point; it keeps a NaN and refuses an infinity. *)
Definition to_decimal (p : Z) (v : number) : option decimal2 :=
  let fit (n : Z) :=
    if Z.abs n <? 10 ^ p then Some (Hundredths n) else None in
  match v with
  | Int z => fit (z * 100)
  | Float S754_nan => Some NaN
  | Float (S754_infinity _) => None
  | Float (S754_zero _) => fit 0
  | Float (S754_finite sg m e) =>
      let '(ds, decpt) := PyFloat.digits_and_point m e in
      let n := round_half_away (PyFloat.digits_value 0 ds)
                 (decpt - Z.of_nat (String.length ds) + 2) in
      fit (if sg then - n else n)
  end.

Fixpoint all_spaces (s : string) : bool :=
  match s with
  | EmptyString => true
  | String c r => Ascii.eqb c " " && all_spaces r
  end.

(** A text in a column [VARCHAR(n)]: a longer text is refused, unless what
    exceeds [n] characters is spaces, which are cut off. *)
Definition to_varchar (n : nat) (s : string) : option string :=
  if (String.length s <=? n)%nat then Some s
  else if all_spaces (substring n (String.length s - n) s)
       then Some (substring 0 n s)
       else None.

(** An integer in a column [BIGINT]. *)
Definition to_bigint (z : Z) : option Z :=
  if (- 2 ^ 63 <=? z) && (z <? 2 ^ 63) then Some z else None.

(** The symbol and the row the server makes of the parameters, by the
    column types of [CREATE TABLE psx_data]; [None] when it raises. *)
Definition server_row (sym : string) (r : row)
    : option (string * stored_row) :=
  c_symbol ← to_varchar 50 sym;
  c_sector ← to_varchar 100 (row_sector r);
  c_listed_in ← to_varchar 50 (row_listed_in r);
  c_ldcp ← to_decimal 10 (row_ldcp r);
  c_open ← to_decimal 10 (row_open r);
  c_high ← to_decimal 10 (row_high r);
  c_low ← to_decimal 10 (row_low r);
  c_current ← to_decimal 10 (row_current r);
  c_change ← to_decimal 10 (row_change r);
  c_change_percent ← to_decimal 6 (row_change_percent r);
  c_volume ← to_bigint (row_volume r);
  Some (c_symbol,
        mk_stored c_sector c_listed_in c_ldcp c_open c_high c_low c_current
                  c_change c_change_percent c_volume).

(** psycopg2 cannot write a text with a NUL character. *)
Definition has_nul (s : string) : bool :=
  contains (String Ascii.zero EmptyString) s.

(** What becomes of one insert statement. *)
Inductive insert_outcome : Type :=
  | NotSent                             (* psycopg2 raises, nothing is sent *)
  | Rejected                            (* the server raises *)
  | Row (k : string) (sr : stored_row). (* the row the server would add *)

Definition adapt_insert (sym : string) (r : row) : insert_outcome :=
  if has_nul sym || has_nul (row_sector r) || has_nul (row_listed_in r)
  then NotSent
  else match server_row sym r with
       | Some (k, sr) => Row k sr
       | None => Rejected
       end.

(** *** The connection *)

(** A connection: the committed rows, the rows as the open transaction sees
    them, and whether a statement of the transaction has failed, after
    which the server refuses every statement until the transaction ends. *)
Record conn : Type := mk_conn {
  committed : table;
  working : table;
  failed : bool
}.

(** [conn.commit()]: a transaction in which a statement has failed is
    rolled back by the server instead, without an error. *)
Definition commit (c : conn) : conn :=
  if failed c then mk_conn (committed c) (committed c) false
  else mk_conn (working c) (working c) false.

(** [conn.rollback()] *)
Definition rollback (c : conn) : conn :=
  mk_conn (committed c) (committed c) false.

(** [INSERT ... ON CONFLICT (scrape_timestamp, symbol) DO NOTHING] on the
    rows of the transaction. *)
Definition add_row (ts : datetime) (k : string) (sr : stored_row)
    (t : table) : table :=
  match t !! (ts, k) with
  | Some _ => t
  | None => <[(ts, k) := sr]> t
  end.

(** [cur.execute(insert_query, row_data)] *)
Definition execute_insert (ts : datetime) (sym : string) (r : row)
    (c : conn) : res unit * conn :=
  match adapt_insert sym r with
  | NotSent => (Raise ValueError, c)
  | Rejected =>
      if failed c then (Raise DatabaseError, c)
      else (Raise DatabaseError, mk_conn (committed c) (working c) true)
  | Row k sr =>
      if failed c then (Raise DatabaseError, c)
      else (Ret tt, mk_conn (committed c) (add_row ts k sr (working c)) false)
  end.

(** The loop over [stocks_data] inside the transaction: the connection
    afterwards, and [saved_count].  A record that fails validation is passed
    over; one whose [row_data] or whose [execute] raises is logged and
    skipped. *)
Fixpoint insert_all (ts : datetime) (stocks_data : list stock) (c : conn)
    (saved_count : nat) : conn * nat :=
  match stocks_data with
  | nil => (c, saved_count)
  | item :: rest =>
      if validate_stock_data item then
        match row_data item with
        | Ret r =>
            match execute_insert ts (symbol item) r c with
            | (Ret _, c') => insert_all ts rest c' (S saved_count)
            | (Raise _, c') => insert_all ts rest c' saved_count
            end
        | Raise _ => insert_all ts rest c saved_count
        end
      else insert_all ts rest c saved_count
  end.

(** [SUM(volume)] over the rows with the timestamp [ts]: NULL when there is
    none. *)
Definition total_volume (ts : datetime) (t : table) : option Z :=
  match filter (fun kv => kv.1.1 = ts) (map_to_list t) with
  | nil => None
  | rows => Some (foldr (fun kv acc => col_volume kv.2 + acc) 0 rows)
  end.

(** The log line [f"  Total volume: {summary[3]:,}"]: the format raises on
    [None]. *)
Definition log_total_volume (total : option Z) : res unit :=
  match total with
  | Some _ => Ret tt
  | None => Raise TypeError
  end.

(** What the database connection does in one call: whether
    [psycopg2.connect] (with [conn.cursor()]), [conn.commit()], the summary
    query, [conn.rollback()] and the two [close] calls of the [finally]
    block succeed.  What the server does with an insert statement depends on
    its parameters alone; a connection that is lost during the loop shows at
    the commit, the statements that raise before being skipped one by
    one. *)
Record db_env : Type := mk_env {
  connect_ok : bool;
  commit_ok : bool;
  summary_ok : bool;
  rollback_ok : bool;
  close_ok : bool
}.

(** The [try] block of [save_to_postgresql]: its outcome and the connection,
    if one was opened. *)
Definition save_try (env : db_env) (stocks_data : list stock)
    (ts : datetime) (db : table) : res bool * option conn :=
  if negb (connect_ok env) then (Raise DatabaseError, None)
  else
    let '(c, saved_count) :=
      insert_all ts stocks_data (mk_conn db db false) O in
    if negb (commit_ok env) then (Raise DatabaseError, Some c)
    else
      let c := commit c in
      if (0 <? saved_count)%nat then
        if negb (summary_ok env) then (Raise DatabaseError, Some c)
        else
          match log_total_volume (total_volume ts (committed c)) with
          | Ret _ => (Ret true, Some c)
          | Raise e => (Raise e, Some c)
          end
      else (Ret true, Some c).

(** The [except] clause: roll back if there is a connection, return
    [False]; the rollback is not guarded. *)
Definition save_except (env : db_env) (c : option conn)
    : res bool * option conn :=
  match c with
  | None => (Ret false, None)
  | Some c0 =>
      if rollback_ok env then (Ret false, Some (rollback c0))
      else (Raise DatabaseError, Some c0)
  end.

(** The [finally] clause: the cursor and the connection are closed if
    there are any; an exception of [close] replaces the outcome. *)
Definition save_finally (env : db_env) (outcome : res bool)
    (c : option conn) : res bool * option conn :=
  match c with
  | None => (outcome, None)
  | Some c0 =>
      if close_ok env then (outcome, Some c0)
      else (Raise DatabaseError, Some c0)
  end.

(** The body of [save_to_postgresql]: the value returned or the exception
    let out, and the connection as the call leaves it, if one was
    opened. *)
Definition save_run (env : db_env) (stocks_data : list stock)
    (ts : datetime) (db : table) : res bool * option conn :=
  match stocks_data with
  | nil => (Ret false, None)
  | _ =>
      let '(outcome, c) := save_try env stocks_data ts db in
      let '(outcome, c) :=
        match outcome with
        | Ret b => (Ret b, c)
        | Raise _ => save_except env c
        end in
      save_finally env outcome c
  end.

(** [save_to_postgresql(stocks_data, scrape_timestamp)]: the value returned
    or the exception let out, and the rows stored afterwards, which are the
    committed ones: what a connection has not committed is lost with it. *)
Definition save_to_postgresql (env : db_env) (stocks_data : list stock)
    (ts : datetime) (db : table) : res bool * table :=
  let '(outcome, c) := save_run env stocks_data ts db in
  (outcome, from_option committed db c).

(** Sample inputs: a run timestamp, two records, and databases that work,
    fail at the commit, or are lost at the commit so that the rollback
    fails too. *)
Definition run_ts : datetime := mk_datetime 738886 10 5 0 0.
Definition two_stocks : list stock :=
  sample "150.25" "1000" :: sample "0" "500" :: nil.
Definition db_works : db_env := mk_env true true true true true.
Definition db_lost : db_env := mk_env true false true false true.

(** The row built from [sample "150.25" "1,000"]. *)
Definition sample_row : row :=
  mk_row "CEMENT" "KSE100"
    (Float (PyFloat.of_decimal false 149 0))
    (Float (PyFloat.of_decimal false 1495 (-1)))
    (Float (PyFloat.of_decimal false 151 0))
    (Float (PyFloat.of_decimal false 14875 (-2)))
    (Float (PyFloat.of_decimal false 15025 (-2)))
    (Float (PyFloat.of_decimal false 125 (-2)))
    (Float (PyFloat.of_decimal false 84 (-2)))
    1000.

End Persistence.

(** ** Extraction chain *)

Module Extraction.

Import PyStr.

(** A value handed back by the browser or by an extraction function. *)
Inductive pyval : Type :=
  | PyNone
  | PyList (l : list stock).

(** A [table] element as the in-page script sees it: the text of its [th]
    cells and, when it has a [tbody], the [td] texts of each body row. *)
Record js_table : Type := mk_js_table {
  headers : list string;
  tbody : option (list (list string))
}.

(** What the browser does during one run.
    - [script_run]: [driver.get], the wait for a table and
      [execute_script]; it raises, hands back null, or runs the script on
      the tables of the document.
    - [manual_rows]: the wait for a table of the second strategy and
      [find_elements] on it; it raises, or yields the [tr] rows, each of
      which gives the text of its [td] cells or raises when touched. *)
Record page : Type := mk_page {
  script_run : res (option (list js_table));
  manual_rows : res (list (res (list string)))
}.

(** *** The in-page script *)

Fixpoint join (sep : string) (l : list string) : string :=
  match l with
  | nil => EmptyString
  | x :: nil => x
  | x :: l' => x ++ sep ++ join sep l'
  end.

(** At least ten header cells whose joined text names a known column. *)
Definition js_header_match (t : js_table) : bool :=
  (10 <=? List.length (headers t))%nat &&
  let headerText := join " " (map trim (headers t)) in
  contains "Symbol" headerText || contains "Sector" headerText
  || contains "LDCP" headerText.

Definition js_target_table (tables : list js_table) : option js_table :=
  match List.find js_header_match tables with
  | Some t => Some t
  | None => head tables
  end.

(** [cells[i]?.innerText.trim() || dflt] *)
Definition js_cell (cells : list string) (i : nat) (dflt : string) : string :=
  match nth_error cells i with
  | Some c => if is_empty (trim c) then dflt else trim c
  | None => dflt
  end.

(** The symbols the script passes over. *)
Definition js_blocked (sym : string) : bool :=
  is_empty sym || (20 <? String.length sym)%nat
  || contains "Symbol" sym || contains "Last" sym
  || String.eqb sym "PSX" || String.eqb sym "KSE-100"
  || contains "Open" sym || contains "High" sym
  || contains "Low" sym || contains "Volume" sym.

(** Whether the script keeps a row. *)
Definition js_keeps (cells : list string) : bool :=
  (9 <=? List.length cells)%nat && negb (js_blocked (js_cell cells 0 "")).

Definition js_row (cells : list string) : option stock :=
  if js_keeps cells then
    Some (mk_stock (js_cell cells 0 "") (js_cell cells 1 "")
            (js_cell cells 2 "") (js_cell cells 3 "0") (js_cell cells 4 "0")
            (js_cell cells 5 "0") (js_cell cells 6 "0") (js_cell cells 7 "0")
            (js_cell cells 8 "0") (js_cell cells 9 "0") (js_cell cells 10 "0"))
  else None.

(** [extract_script] run on the tables of the document. *)
Definition extract_script (tables : list js_table) : list stock :=
  match js_target_table tables with
  | None => nil
  | Some t =>
      match tbody t with
      | None => nil
      | Some rows => omap js_row rows
      end
  end.

(** *** The walk over the rows *)

Definition manual_keywords : list string :=
  "Symbol" :: "Last" :: "Open" :: "High" :: "Low" :: "Current" :: "Change"
  :: "Volume" :: nil.

(** The symbols the second strategy passes over. *)
Definition manual_blocked (sym : string) : bool :=
  is_empty sym || (20 <? String.length sym)%nat
  || existsb (fun keyword => contains keyword sym) manual_keywords
  || contains "PSX" sym || contains "KSE" sym.

(** [cells[i].text.strip() if len(cells) > i else dflt] *)
Definition manual_cell (cells : list string) (i : nat) (dflt : string)
    : string :=
  match nth_error cells i with
  | Some c => strip c
  | None => dflt
  end.

(** Whether the second strategy keeps a row. *)
Definition manual_keeps (cells : list string) : bool :=
  negb (List.length cells <? 9)%nat
  && negb (manual_blocked (manual_cell cells 0 "")).

Definition manual_row (cells : list string) : option stock :=
  if manual_keeps cells then
    Some (mk_stock (manual_cell cells 0 "") (manual_cell cells 1 "")
            (manual_cell cells 2 "") (manual_cell cells 3 "0")
            (manual_cell cells 4 "0") (manual_cell cells 5 "0")
            (manual_cell cells 6 "0") (manual_cell cells 7 "0")
            (manual_cell cells 8 "0") (manual_cell cells 9 "0")
            (manual_cell cells 10 "0"))
  else None.

(** The loop over the rows: a row that raises is passed over. *)
Fixpoint manual_loop (rows : list (res (list string))) : list stock :=
  match rows with
  | nil => nil
  | r :: rest =>
      match try_except (cells ← r; Ret (manual_row cells))
                       (fun _ => Ret None) with
      | Ret (Some st) => st :: manual_loop rest
      | _ => manual_loop rest
      end
  end.

(** [extract_manual_complete(driver)] *)
Definition extract_manual_complete (p : page) : res pyval :=
  try_except
    (rows ← manual_rows p; Ret (PyList (manual_loop rows)))
    (fun _ => Ret (PyList nil)).

(** [not raw_data or len(raw_data) == 0] *)
Definition falsy (v : pyval) : bool :=
  match v with
  | PyNone => true
  | PyList nil => true
  | PyList (_ :: _) => false
  end.

(** [driver.execute_script(extract_script)] after the page has loaded. *)
Definition execute_script (p : page) : res pyval :=
  r ← script_run p;
  Ret match r with
      | None => PyNone
      | Some tables => PyList (extract_script tables)
      end.

(** [extract_correct_psx_data(driver)] *)
Definition extract_correct_psx_data (p : page) : res pyval :=
  try_except
    (raw_data ← execute_script p;
     if falsy raw_data then extract_manual_complete p else Ret raw_data)
    (fun _ => extract_manual_complete p).

(** The result of the walk over the rows, as a list: the rows kept, or
    nothing when the table cannot be reached. *)
Definition manual_result (p : page) : list stock :=
  match manual_rows p with
  | Ret rows => manual_loop rows
  | Raise _ => nil
  end.

(** The containment tests the second strategy makes and the script does
    not. *)
Definition extra_blocked (sym : string) : bool :=
  contains "Current" sym || contains "Change" sym
  || contains "PSX" sym || contains "KSE" sym.

(** A sample row of nine cells with the symbol [PSXA]. *)
Definition psxa_row : list string :=
  "PSXA" :: "Sector" :: "ALL" :: "10.00" :: "10.10" :: "10.50" :: "9.90"
  :: "10.20" :: "0.20" :: nil.

(** The same row with the separator 28 alone in its first cell. *)
Definition separator_row : list string :=
  String (ascii_of_nat 28) "" :: List.tl psxa_row.

End Extraction.

(** ** Run orchestrator *)

Module Orchestrator.

Import Scheduler Persistence Extraction.

(** What the machine does during one call of [run_scraper]: the clock as
    [is_market_open] reads it and as [scrape_timestamp] is taken, the two
    ways of starting Chrome, the page and the database. *)
Record run_env : Type := mk_run_env {
  market_clock : datetime;
  scrape_clock : datetime;
  chrome_managed : res unit;
  chrome_direct : res unit;
  the_page : page;
  the_db : db_env
}.

(** [setup_driver()]: the managed driver first, the plain one when that
    raises; the exception of the second attempt is raised again. *)
Definition setup_driver (e : run_env) : res unit :=
  try_except (chrome_managed e) (fun _ => chrome_direct e).

(** How one call of [run_scraper] went. *)
Inductive run_status : Type :=
  | Skipped            (* market closed *)
  | Failed             (* an exception reached the handler *)
  | NoData             (* nothing extracted *)
  | Saved (ok : bool). (* what [save_to_postgresql] returned *)

(** The outcome of a call: its status, the rows stored afterwards, and
    whether a browser was started and whether [quit] was called on it. *)
Record run_result : Type := mk_run_result {
  status : run_status;
  stored : table;
  started : bool;
  quit : bool
}.

(** [stocks_data and len(stocks_data) > 0] *)
Definition truthy (v : pyval) : option (list stock) :=
  match v with
  | PyList (st :: l) => Some (st :: l)
  | _ => None
  end.

(** [run_scraper()] *)
Definition run_scraper (e : run_env) (db : table) : run_result :=
  if negb (is_market_open (market_clock e))
  then mk_run_result Skipped db false false
  else
    let scrape_timestamp := scrape_clock e in
    match setup_driver e with
    | Raise _ => mk_run_result Failed db false false
    | Ret _ =>
        match extract_correct_psx_data (the_page e) with
        | Raise _ => mk_run_result Failed db true true
        | Ret v =>
            match truthy v with
            | None => mk_run_result NoData db true true
            | Some stocks_data =>
                match save_to_postgresql (the_db e) stocks_data
                        scrape_timestamp db with
                | (Ret success, db') =>
                    mk_run_result (Saved success) db' true true
                | (Raise _, db') => mk_run_result Failed db' true true
                end
            end
        end
    end.

End Orchestrator.

(** ** One round of the scheduling loop *)

Module Loop.

Import Clock Scheduler.

(** The time of day in microseconds. *)
Definition time_of_day (d : datetime) : Z :=
  ((hour d * 60 + minute d) * 60 + second d) * 1000000 + microsecond d.

(** The open-market branch of [run_and_schedule]: [get_next_scrape_time]
    reads the clock as [c2], the subtraction reads it again as [c3].  The
    result is the argument of [time.sleep], in microseconds. *)
Definition open_wait (c2 c3 : datetime) : Z :=
  let next_time := get_next_scrape_time c2 in
  let wait := to_us next_time - to_us c3 in
  if 0 <? wait then wait else SCRAPE_INTERVAL_MINUTES * 60 * 1000000.

(** The closed-market branch: the argument of [time.sleep], in
    microseconds. *)
Definition closed_wait (fuel : nat) (now_pk : datetime) : option Z :=
  r ← next_open fuel now_pk; Some (to_us r - to_us now_pk).

(** Sample readings: Friday 2024-01-05 at 15:31 and Monday at 10:07:30. *)
Definition friday_1531 : datetime := mk_datetime 738890 15 31 0 0.
Definition monday_100730 : datetime := mk_datetime 738886 10 7 30 0.

End Loop.

(** ** What one batch writes *)

Module Batch.

Import Normalizer Persistence.

(** The row the loop of [save_to_postgresql] hands to the insert for a
    record, if any: the record is valid and its conversions do not raise. *)
Definition to_row (item : stock) : option row :=
  if validate_stock_data item then
    match row_data item with
    | Ret r => Some r
    | Raise _ => None
    end
  else None.

(** What becomes of a record in the loop: no statement is executed for it,
    or its insert statement has an outcome. *)
Definition sent (item : stock) : option insert_outcome :=
  r ← to_row item; Some (adapt_insert (symbol item) r).

(** The server rejects a statement of the batch, which aborts the
    transaction. *)
Definition aborts (l : list stock) : bool :=
  existsb (fun item => match sent item with
                       | Some Rejected => true
                       | _ => false
                       end) l.

(** The rows the transaction holds after the loop, up to the first rejected
    statement if there is one. *)
Fixpoint pending (ts : datetime) (l : list stock) (t : table) : table :=
  match l with
  | nil => t
  | item :: rest =>
      match sent item with
      | Some (Row k sr) => pending ts rest (add_row ts k sr t)
      | Some Rejected => t
      | _ => pending ts rest t
      end
  end.

(** The statements that succeed: those the server accepts before it rejects
    one. *)
Fixpoint saved (l : list stock) : nat :=
  match l with
  | nil => O
  | item :: rest =>
      match sent item with
      | Some (Row _ _) => S (saved rest)
      | Some Rejected => O
      | _ => saved rest
      end
  end.

(** The row of the first statement the server accepts under the symbol
    [sym], looking no further than a rejected statement. *)
Fixpoint first_row (l : list stock) (sym : string) : option stored_row :=
  match l with
  | nil => None
  | item :: rest =>
      match sent item with
      | Some (Row k sr) => if String.eqb k sym then Some sr
                           else first_row rest sym
      | Some Rejected => None
      | _ => first_row rest sym
      end
  end.

(** The rows stored once the transaction of the batch is committed. *)
Definition batch_rows (ts : datetime) (l : list stock) (db : table) : table :=
  if aborts l then db else pending ts l db.

(** The summary query finds a row of the run. *)
Definition has_rows (ts : datetime) (t : table) : bool :=
  match total_volume ts t with
  | Some _ => true
  | None => false
  end.

(** A database whose summary query fails. *)
Definition db_summary_fails : db_env := mk_env true true false true true.

(** A later run timestamp than [run_ts]. *)
Definition run_ts' : datetime := mk_datetime 738886 10 10 0 0.

(** A record with the symbol [sym] and the volume [vol], and a batch of three
    whose second has a volume of ten to the nineteenth, beyond a [BIGINT]. *)
Definition record (sym vol : string) : stock :=
  mk_stock sym "CEMENT" "KSE100" "149.00" "149.50" "151.00" "148.75"
           "150.25" "1.25" "0.84" vol.
Definition three_stocks : list stock :=
  record "XYZ" "1000" :: record "BIG" "10000000000000000000"
  :: record "LAST" "500" :: nil.

(** The row stored for [sample "150.25" "1000"]. *)
Definition sample_stored : stored_row :=
  mk_stored "CEMENT" "KSE100" (Hundredths 14900) (Hundredths 14950)
    (Hundredths 15100) (Hundredths 14875) (Hundredths 15025)
    (Hundredths 125) (Hundredths 84) 1000.

End Batch.

(** ** Characters of a text *)

Module Chars.

(** [c in s] for a character [c]. *)
Fixpoint has_char (c : ascii) (s : string) : bool :=
  match s with
  | EmptyString => false
  | String a r => Ascii.eqb a c || has_char c r
  end.

(** The characters [clean_numeric_value] removes one by one. *)
Definition removed_chars : list ascii :=
  ("," :: " " :: "%" :: "(" :: ")" :: "$" :: nil)%char.

End Chars.

(** ** Rows of the market-watch table *)

Module Rows.

Import PyStr.

(** No cell of the row is blank. *)
Definition no_blank (cells : list string) : bool :=
  forallb (fun c => negb (is_empty (strip c))) cells.

(** On every cell of the row JavaScript's [trim] and Python's [strip] give
    the same text: no cell has a separator 28..31 where [trim] stops. *)
Definition same_trim (cells : list string) : bool :=
  forallb (fun c => String.eqb (trim c) (strip c)) cells.

(** A sample row with all eleven cells, and one cut after the ninth. *)
Definition abc_row : list string :=
  " ABC " :: "CEMENT" :: "KSE100" :: "149.00" :: "149.50" :: "151.00"
  :: "148.75" :: "150.25" :: "1.25" :: "0.84" :: "1,000" :: nil.
Definition abc_row9 : list string := firstn 9 abc_row.

End Rows.

(** * Properties *)

(** ** Python floats *)

Section PyFloatFacts.

Import PyStr PyFloat.

(** The model on a few texts, as CPython answers them. *)
Example float_samples :
  float "150.25" = Ret (S754_finite false 5286451906347008 (-45)) /\
  float " 1_000 " = Ret (S754_finite false 8796093022208000 (-43)) /\
  float "1e999" = Ret (S754_infinity false) /\
  float "-nan" = Ret S754_nan /\
  float "1.2.3" = Raise ValueError /\
  float "" = Raise ValueError.
Proof. repeat split; vm_compute; reflexivity. Qed.

Example str_samples :
  map (fun s => match float s with Ret x => str x | Raise _ => "" end)
      ("150.25" :: "0.1" :: "-5" :: "1e16" :: "0.00001" :: "1234.50"
       :: "123456789012345678" :: "5e-324" :: "inf" :: "-0" :: nil)
  = "150.25" :: "0.1" :: "-5.0" :: "1e+16" :: "1e-05" :: "1234.5"
    :: "1.2345678901234568e+17" :: "5e-324" :: "inf" :: "-0.0" :: nil.
Proof. vm_compute. reflexivity. Qed.

Example float_whitespace :
  float (String (ascii_of_nat 11) "5 ") = float "5" /\
  float (String (ascii_of_nat 28) "5") = Raise ValueError /\
  strip (String (ascii_of_nat 28) "5") = "5" /\
  trim (String (ascii_of_nat 28) "5") = String (ascii_of_nat 28) "5".
Proof. repeat split; vm_compute; reflexivity. Qed.

Example int_samples :
  int (of_decimal true 59 (-1)) = Ret (-5) /\
  int (S754_infinity false) = Raise OverflowError /\
  int S754_nan = Raise ValueError.
Proof. repeat split; vm_compute; reflexivity. Qed.

Lemma str_app_cons (c : ascii) (a b : string) :
  String c a ++ b = String c (a ++ b).
Proof. reflexivity. Qed.

Lemma str_app_nil_l (s : string) : "" ++ s = s.
Proof. reflexivity. Qed.

Lemma str_app_nil_r (s : string) : s ++ "" = s.
Proof.
  induction s as [| c s IH]; [reflexivity |].
  now rewrite str_app_cons, IH.
Qed.

Lemma str_app_assoc (a b c : string) : (a ++ b) ++ c = a ++ b ++ c.
Proof.
  induction a as [| x a IH]; [reflexivity |].
  now rewrite !str_app_cons, IH.
Qed.

Lemma all_digits_app (a b : string) :
  all_digits (a ++ b) = all_digits a && all_digits b.
Proof.
  induction a as [| c a IH]; [reflexivity |].
  rewrite str_app_cons. cbn. now rewrite IH, andb_assoc.
Qed.

Lemma is_digit_digit_char (d : nat) : is_digit (digit_char d) = true.
Proof. do 10 (destruct d as [| d]; [reflexivity |]). reflexivity. Qed.

Lemma all_digits_digits_of (fuel : nat) (n : Z) (acc : string) :
  all_digits acc = true -> all_digits (digits_of fuel n acc) = true.
Proof.
  revert n acc. induction fuel as [| k IH]; intros n acc H; cbn; [exact H |].
  destruct (n / 10 =? 0)%Z; [| apply IH]; cbn;
    now rewrite is_digit_digit_char.
Qed.

Lemma digits_of_nonempty (fuel : nat) (n : Z) (acc : string) :
  is_empty (digits_of (S fuel) n acc) = false.
Proof.
  revert n acc. induction fuel as [| k IH]; intros n acc.
  - cbn. now destruct (n / 10 =? 0)%Z.
  - change (digits_of (S (S k)) n acc) with
      (let acc' := String (digit_char (Z.to_nat (n mod 10))) acc in
       if (n / 10 =? 0)%Z then acc' else digits_of (S k) (n / 10) acc').
    cbn zeta. destruct (n / 10 =? 0)%Z; [reflexivity | apply IH].
Qed.

Lemma decimal_ok (n : Z) :
  all_digits (decimal n) = true /\ is_empty (decimal n) = false.
Proof.
  unfold decimal. split;
    [now apply all_digits_digits_of | apply digits_of_nonempty].
Qed.

Lemma all_digits_zeros (n : nat) : all_digits (zeros n) = true.
Proof. induction n as [| n IH]; cbn; [reflexivity | exact IH]. Qed.

Lemma all_digits_strip_zeros (s : string) :
  all_digits s = true -> all_digits (strip_zeros s) = true.
Proof.
  induction s as [| c s IH]; cbn; [reflexivity |].
  intros H. apply andb_true_iff in H as [Hc Hs].
  destruct (is_empty (strip_zeros s) && Ascii.eqb c "0"); [reflexivity |].
  cbn. now rewrite Hc, IH.
Qed.

Lemma significant_ok (s : string) :
  all_digits s = true ->
  all_digits (significant s) = true /\ is_empty (significant s) = false.
Proof.
  intros H. apply all_digits_strip_zeros in H. unfold significant.
  destruct (strip_zeros s); [split; reflexivity | split; [exact H | reflexivity]].
Qed.

Lemma pad2_ok (s : string) :
  all_digits s = true -> is_empty s = false ->
  all_digits (pad2 s) = true /\ is_empty (pad2 s) = false.
Proof.
  intros H E. destruct s as [| c [| d r]]; [discriminate | |];
    split; try reflexivity; exact H.
Qed.

Lemma all_digits_substring (n m : nat) (s : string) :
  all_digits s = true -> all_digits (substring n m s) = true.
Proof.
  revert n m. induction s as [| c s IH]; intros n m H.
  - destruct n, m; reflexivity.
  - cbn in H. apply andb_true_iff in H as [Hc Hs].
    destruct n as [| n]; cbn.
    + destruct m as [| m]; [reflexivity |]. cbn. now rewrite Hc, IH.
    + now apply IH.
Qed.

Lemma substring_split (n : nat) (s : string) :
  (n <= String.length s)%nat ->
  substring 0 n s ++ substring n (String.length s - n) s = s.
Proof.
  revert n. induction s as [| c s IH]; intros n Hn.
  - destruct n; [reflexivity | cbn in Hn; lia].
  - destruct n as [| n]; cbn.
    + rewrite str_app_nil_l. f_equal. clear.
      induction s as [| d s IH]; cbn; [reflexivity | now rewrite IH].
    + rewrite str_app_cons. f_equal. apply IH. cbn in Hn. lia.
Qed.

(** *** Reading a literal *)

Lemma digit_not_other (c : ascii) :
  is_digit c = true ->
  is_space c = false /\ Ascii.eqb c "_" = false /\ Ascii.eqb c "." = false /\
  Ascii.eqb c "-" = false /\ Ascii.eqb c "+" = false /\ lower_char c = c /\
  Ascii.eqb c "i" = false /\ Ascii.eqb c "n" = false /\
  numeric_char c = true.
Proof.
  destruct c as [[] [] [] [] [] [] [] []]; intros H;
    try discriminate H; repeat split; reflexivity.
Qed.

Lemma numeric_char_plain (c : ascii) :
  numeric_char c = true -> is_space c = false /\ Ascii.eqb c "_" = false.
Proof.
  destruct c as [[] [] [] [] [] [] [] []]; intros H;
    try discriminate H; split; reflexivity.
Qed.

Lemma numeric_app (a b : string) :
  numeric (a ++ b) = numeric a && numeric b.
Proof.
  induction a as [| c a IH]; [reflexivity |].
  rewrite str_app_cons. cbn. now rewrite IH, andb_assoc.
Qed.

Lemma all_digits_numeric (s : string) :
  all_digits s = true -> numeric s = true.
Proof.
  induction s as [| c s IH]; cbn; [reflexivity |]. intros H.
  apply andb_true_iff in H as [Hc Hs].
  destruct (digit_not_other c Hc) as (_ & _ & _ & _ & _ & _ & _ & _ & ->).
  now apply IH.
Qed.

Lemma numeric_char_not_blank (c : ascii) :
  numeric_char c = true -> is_blank c = false.
Proof.
  destruct c as [[] [] [] [] [] [] [] []]; intros H;
    try discriminate H; reflexivity.
Qed.

Lemma trim_end_numeric (s : string) : numeric s = true -> trim_end s = s.
Proof.
  induction s as [| c s IH]; cbn; [reflexivity |]. intros H.
  apply andb_true_iff in H as [Hc Hs]. rewrite (IH Hs).
  rewrite (numeric_char_not_blank c Hc).
  now rewrite andb_false_r.
Qed.

Lemma trim_numeric (s : string) : numeric s = true -> trim s = s.
Proof.
  intros H. unfold trim. rewrite (trim_end_numeric s H).
  destruct s as [| c s]; [reflexivity |]. cbn in *.
  apply andb_true_iff in H as [Hc _].
  now rewrite (numeric_char_not_blank c Hc).
Qed.

Lemma drop_underscores_numeric (prev : ascii) (s : string) :
  Ascii.eqb prev "_" = false -> numeric s = true ->
  drop_underscores prev s = Some s.
Proof.
  revert prev. induction s as [| c s IH]; intros prev Hp H; cbn.
  - now rewrite Hp.
  - cbn in H. apply andb_true_iff in H as [Hc Hs].
    destruct (numeric_char_plain c Hc) as [_ Hu]. rewrite Hu, Hp. cbn.
    now rewrite (IH c Hu Hs).
Qed.

Lemma span_digits_app (a rest : string) :
  all_digits a = true -> no_leading_digit rest = true ->
  span_digits (a ++ rest) = (a, rest).
Proof.
  intros Ha Hr. induction a as [| c a IH].
  - rewrite str_app_nil_l. destruct rest as [| c r]; [reflexivity |].
    cbn in *. now rewrite (negb_true_iff _) in Hr; rewrite Hr.
  - rewrite str_app_cons. cbn in *.
    apply andb_true_iff in Ha as [Hc Ha]. now rewrite Hc, (IH Ha).
Qed.

Lemma span_digits_all (a : string) :
  all_digits a = true -> span_digits a = (a, "").
Proof.
  intros Ha. rewrite <- (str_app_nil_r a) at 1.
  now apply span_digits_app.
Qed.

Lemma scan_exponent_ok (neg : bool) (xs : string) :
  all_digits xs = true -> is_empty xs = false ->
  exists z, scan_exponent ("e" ++ (if neg then "-" else "+") ++ xs) = Some z.
Proof.
  intros Hx He.
  assert (Hs : split_sign ((if neg then "-" else "+") ++ xs) = (neg, xs))
    by now destruct neg.
  rewrite str_app_cons, str_app_nil_l. cbn [scan_exponent].
  change (Ascii.eqb "e" "e" || Ascii.eqb "e" "E") with true. cbn match.
  rewrite Hs, (span_digits_all xs Hx), He. cbn. eauto.
Qed.

Lemma exponent_part_ok (ex : option (bool * string)) :
  match ex with
  | Some (_, xs) => all_digits xs && negb (is_empty xs)
  | None => true
  end = true ->
  let tail :=
    match ex with
    | Some (neg, xs) => "e" ++ (if neg then "-" else "+") ++ xs
    | None => ""
    end in
  no_leading_digit tail = true /\
  (forall r, tail <> String "." r) /\
  exists z, scan_exponent tail = Some z.
Proof.
  destruct ex as [[neg xs] |]; cbn zeta; intros H.
  - apply andb_true_iff in H as [Hx He]. apply negb_true_iff in He.
    repeat split; [discriminate | now apply scan_exponent_ok].
  - repeat split; [discriminate | now exists 0].
Qed.

Lemma scan_decimal_parts (ip : string) (fp : option string) (tail : string)
    (z : Z) :
  all_digits ip = true -> is_empty ip = false ->
  match fp with Some f => all_digits f | None => true end = true ->
  no_leading_digit tail = true -> (forall r, tail <> String "." r) ->
  scan_exponent tail = Some z ->
  exists dk,
    scan_decimal
      (ip ++ match fp with Some f => "." ++ f | None => "" end ++ tail)
    = Some dk.
Proof.
  intros Hip Hne Hfp Hstop Hdot Hz. unfold scan_decimal.
  destruct fp as [f |].
  - rewrite span_digits_app by (assumption || reflexivity).
    rewrite !str_app_cons, str_app_nil_l. cbv beta iota.
    rewrite span_digits_app by assumption. cbv beta iota.
    rewrite Hne, Hz. cbn. eauto.
  - rewrite str_app_nil_l, span_digits_app by assumption. cbv beta iota.
    assert (E : match tail with
                | String "." r => span_digits r
                | _ => ("", tail)
                end = ("", tail)).
    { destruct tail as [| c r]; [reflexivity |].
      destruct (Ascii.eqb_spec c ".") as [-> | Hc];
        [now destruct (Hdot r) |].
      destruct c as [[] [] [] [] [] [] [] []]; try reflexivity.
      now destruct Hc. }
    rewrite E. cbv beta iota. rewrite Hne, Hz. cbn. eauto.
Qed.

Lemma scan_decimal_literal ip fp ex :
  literal_ok ip fp ex = true ->
  exists dk, scan_decimal (literal ip fp ex) = Some dk.
Proof.
  unfold literal_ok, literal. intros H.
  apply andb_true_iff in H as [H Hex].
  apply andb_true_iff in H as [H Hfp].
  apply andb_true_iff in H as [Hip Hne]. apply negb_true_iff in Hne.
  destruct (exponent_part_ok ex Hex) as (Hstop & Hdot & z & Hz).
  now apply (scan_decimal_parts ip fp _ z).
Qed.

Lemma literal_shape ip fp ex :
  literal_ok ip fp ex = true ->
  numeric (literal ip fp ex) = true /\
  exists c r, literal ip fp ex = String c r /\ is_digit c = true.
Proof.
  unfold literal_ok, literal. intros H.
  apply andb_true_iff in H as [H Hex].
  apply andb_true_iff in H as [H Hfp].
  apply andb_true_iff in H as [Hip Hne]. split.
  - rewrite !numeric_app, (all_digits_numeric ip Hip). cbn [andb].
    apply andb_true_iff. split.
    + destruct fp as [f |]; [| reflexivity].
      rewrite str_app_cons, str_app_nil_l. cbn.
      now apply all_digits_numeric.
    + destruct ex as [[neg xs] |]; [| reflexivity].
      apply andb_true_iff in Hex as [Hx _].
      rewrite str_app_cons, str_app_nil_l. cbn [numeric].
      rewrite numeric_app, (all_digits_numeric xs Hx). now destruct neg.
  - destruct ip as [| c r]; [discriminate |].
    cbn in Hip. apply andb_true_iff in Hip as [Hc _].
    rewrite str_app_cons. eauto.
Qed.

(** [float] reads every well-formed literal, signed or not. *)
Lemma float_literal (neg : bool) ip fp ex :
  literal_ok ip fp ex = true ->
  exists y, float ((if neg then "-" else "") ++ literal ip fp ex) = Ret y.
Proof.
  intros Hok.
  destruct (literal_shape ip fp ex Hok) as (Hnum & c & r & Hcr & Hc).
  destruct (scan_decimal_literal ip fp ex Hok) as ([d k] & Hscan).
  destruct (digit_not_other c Hc)
    as (_ & _ & _ & Hminus & Hplus & Hlow & Hi & Hn & _).
  set (s := (if neg then "-" else "") ++ literal ip fp ex).
  assert (Hs : numeric s = true)
    by (subst s; rewrite numeric_app, Hnum; now destruct neg).
  assert (Hsplit : split_sign s = (neg, literal ip fp ex)).
  { subst s. destruct neg; [reflexivity |].
    rewrite str_app_nil_l, Hcr. clear - Hc.
    destruct c as [[] [] [] [] [] [] [] []]; try discriminate Hc;
      reflexivity. }
  assert (Hspecial : special neg (literal ip fp ex) = None).
  { rewrite Hcr. unfold special. cbn [lower]. rewrite Hlow.
    cbn [String.eqb]. rewrite Hi, Hn. reflexivity. }
  unfold float, parse.
  rewrite (trim_numeric s Hs).
  rewrite (drop_underscores_numeric "." s eq_refl Hs).
  rewrite Hsplit, Hspecial, Hscan. eauto.
Qed.

(** *** Writing a float *)

Lemma exponent_form_literal (ds : string) (decpt : Z) :
  all_digits ds = true -> is_empty ds = false ->
  exists ip fp ex,
    exponent_form ds decpt = literal ip fp ex /\ literal_ok ip fp ex = true.
Proof.
  intros Hd He. unfold exponent_form.
  destruct (pad2_ok (decimal (Z.abs (decpt - 1))))
    as [Hp Hpe]; try apply decimal_ok.
  set (xs := pad2 (decimal (Z.abs (decpt - 1)))) in *.
  destruct ds as [| c [| d r]]; [discriminate | |].
  - exists (String c ""), None, (Some ((decpt - 1 <? 0)%Z, xs)).
    split; [reflexivity |]. unfold literal_ok. now rewrite Hd, Hp, Hpe.
  - exists (String c ""), (Some (String d r)),
      (Some ((decpt - 1 <? 0)%Z, xs)).
    split; [reflexivity |]. unfold literal_ok. rewrite Hp, Hpe.
    cbn in *. apply andb_true_iff in Hd as [-> ->]. reflexivity.
Qed.

Lemma fixed_form_literal (ds : string) (decpt : Z) :
  all_digits ds = true -> is_empty ds = false ->
  exists ip fp ex,
    fixed_form ds decpt = literal ip fp ex /\ literal_ok ip fp ex = true.
Proof.
  intros Hd He. unfold fixed_form.
  destruct (Z.leb_spec decpt 0) as [H0 | H0].
  - exists "0", (Some (zeros (Z.to_nat (- decpt)) ++ ds)), None.
    split.
    + unfold literal. now rewrite str_app_nil_r.
    + unfold literal_ok. cbn.
      now rewrite all_digits_app, all_digits_zeros, Hd.
  - destruct (Z.leb_spec (Z.of_nat (String.length ds)) decpt) as [H1 | H1].
    + exists (ds ++ zeros (Z.to_nat (decpt - Z.of_nat (String.length ds)))),
        (Some "0"), None.
      split.
      * unfold literal. now rewrite str_app_nil_r, str_app_assoc.
      * unfold literal_ok.
        rewrite all_digits_app, all_digits_zeros, Hd.
        destruct ds; [discriminate | reflexivity].
    + exists (substring 0 (Z.to_nat decpt) ds),
        (Some (substring (Z.to_nat decpt)
                 (Z.to_nat (Z.of_nat (String.length ds) - decpt)) ds)), None.
      split.
      * unfold literal. now rewrite str_app_nil_r.
      * unfold literal_ok. rewrite !all_digits_substring by assumption.
        destruct ds as [| c r]; [discriminate |].
        destruct (Z.to_nat decpt) eqn:E; [lia | reflexivity].
Qed.

Lemma format_short_literal (ds : string) (decpt : Z) :
  all_digits ds = true -> is_empty ds = false ->
  exists ip fp ex,
    format_short ds decpt = literal ip fp ex /\ literal_ok ip fp ex = true.
Proof.
  intros Hd He. unfold format_short.
  destruct ((decpt <=? -4)%Z || (16 <? decpt)%Z);
    [now apply exponent_form_literal | now apply fixed_form_literal].
Qed.

(** What [str] writes for a float, [float] reads: [float(str(x))] never
    raises. *)
Theorem float_str_total (x : spec_float) :
  exists y, float (str x) = Ret y.
Proof.
  destruct x as [sg | sg | | sg m e].
  - destruct sg; eexists; vm_compute; reflexivity.
  - destruct sg; eexists; vm_compute; reflexivity.
  - eexists; vm_compute; reflexivity.
  - unfold str, digits_and_point.
    destruct (shortest _ _ _ _ _ _) as [c n].
    destruct (decimal_ok c) as [Hd _].
    destruct (significant_ok (decimal c) Hd) as [Hs He].
    destruct (format_short_literal (significant (decimal c))
                (Z.of_nat (String.length (decimal c))
                 + exponent10 (if (0 <=? e)%Z then Z.pos m * 2 ^ e else Z.pos m)
                     (if (0 <=? e)%Z then 1 else 2 ^ (- e)) - n) Hs He)
      as (ip & fp & ex & -> & Hok).
    now apply float_literal.
Qed.

End PyFloatFacts.

(** ** Record normaliser *)

Section NormalizerFacts.

Import PyStr Normalizer.

Lemma clean_numeric_value_returns (value : string) :
  clean_numeric_value_res value = Ret (clean_numeric_value value).
Proof.
  unfold clean_numeric_value, clean_numeric_value_res, clean_numeric_try.
  destruct (is_empty value || str_in value sentinels); [reflexivity |].
  destruct (is_empty (cleaned value) || String.eqb (cleaned value) "-");
    [reflexivity |].
  destruct (PyFloat.float (cleaned value)); reflexivity.
Qed.

Lemma clean_numeric_value_unparsable (value : string) (e : pyexn) :
  PyFloat.float (cleaned value) = Raise e -> clean_numeric_value value = "0".
Proof.
  unfold clean_numeric_value, clean_numeric_value_res, clean_numeric_try.
  intros H.
  destruct (is_empty value || str_in value sentinels); [reflexivity |].
  destruct (is_empty (cleaned value) || String.eqb (cleaned value) "-");
    [reflexivity |].
  rewrite H. reflexivity.
Qed.

(** C7. [clean_numeric_value] returns a string for every input and never
    raises; on each of the sentinels [""], ["-"], ["N/A"], ["NAN"],
    ["NULL"], ["N/S"], [" "], and whenever [float] rejects the cleaned
    text, the string is ["0"]. *)
Theorem clean_numeric_value_total (value : string) :
  clean_numeric_value_res value = Ret (clean_numeric_value value) /\
  (str_in value ("" :: "-" :: "N/A" :: "NAN" :: "NULL" :: "N/S" :: " " :: nil)
   = true -> clean_numeric_value value = "0") /\
  (forall e, PyFloat.float (cleaned value) = Raise e ->
             clean_numeric_value value = "0").
Proof.
  split; [apply clean_numeric_value_returns |].
  split; [| apply clean_numeric_value_unparsable].
  intros H. cbn [str_in] in H.
  repeat (apply orb_true_iff in H as [H | H]);
    try (apply String.eqb_eq in H; subst value; reflexivity).
  discriminate.
Qed.

(** The shape of every result: ["0"], or the text of the float read from
    the cleaned input. *)
Lemma clean_numeric_value_cases (value : string) :
  clean_numeric_value value = "0" \/
  exists x, PyFloat.float (cleaned value) = Ret x /\
            clean_numeric_value value = PyFloat.str x.
Proof.
  unfold clean_numeric_value, clean_numeric_value_res, clean_numeric_try.
  destruct (is_empty value || str_in value sentinels); [now left |].
  destruct (is_empty (cleaned value) || String.eqb (cleaned value) "-");
    [now left |].
  destruct (PyFloat.float (cleaned value)) as [x | e]; [| now left].
  right. exists x. split; reflexivity.
Qed.

(** What [validate_stock_data] computes. *)
Lemma validate_stock_data_unfold (st : stock) :
  validate_stock_data st =
  negb (is_empty (symbol st)) && (String.length (symbol st) <=? 20)%nat &&
  match PyFloat.float (clean_numeric_value (current st)) with
  | Ret x => negb (PyFloat.le x (PyFloat.of_int 0)
                   || PyFloat.gt x (PyFloat.of_int 100000))
  | Raise _ => false
  end.
Proof.
  unfold validate_stock_data, validate_try.
  rewrite Nat.leb_antisym.
  destruct (is_empty (symbol st)); [reflexivity |].
  destruct (20 <? String.length (symbol st))%nat; [reflexivity |]. cbn.
  destruct (PyFloat.float (clean_numeric_value (current st))) as [x | e];
    [| reflexivity].
  cbn. destruct (PyFloat.le x _ || PyFloat.gt x _); reflexivity.
Qed.

(** The two examples of C6: a [current] of ["0"] is rejected and one of
    ["150.25"] is accepted. *)
Example validate_zero_and_150_25 :
  validate_stock_data (sample "0" "1000") = false /\
  validate_stock_data (sample "150.25" "1000") = true.
Proof. split; vm_compute; reflexivity. Qed.

(** C6 at a record whose [current] is the text [nan].  The cleaned value is
    ["nan"], it reads as a NaN, which is neither greater than 0 nor at most
    100000, and [validate_stock_data] accepts the record. *)
Theorem validate_accepts_nan :
  clean_numeric_value (current (sample "nan" "1000")) = "nan" /\
  PyFloat.float "nan" = Ret S754_nan /\
  spec_in_range S754_nan = false /\
  spec_accepts (sample "nan" "1000") = false /\
  validate_stock_data (sample "nan" "1000") = true.
Proof. repeat split; vm_compute; reflexivity. Qed.

(** Comparisons of floats are total and antisymmetric away from NaN. *)
Lemma SFcompare_antisym (x y : spec_float) :
  SFcompare y x = option_map CompOpp (SFcompare x y).
Proof.
  destruct x as [sx | sx | | sx mx ex], y as [sy | sy | | sy my ey];
    try destruct sx; try destruct sy; cbn; try reflexivity;
    rewrite (Z.compare_antisym ey ex);
    destruct (ey ?= ex); cbn; try reflexivity;
    rewrite (Pos.compare_cont_antisym mx my Eq); cbn;
    now rewrite ?CompOpp_involutive.
Qed.

Lemma not_le_gt (x y : spec_float) :
  x <> S754_nan -> y <> S754_nan ->
  negb (PyFloat.le x y) = PyFloat.gt x y.
Proof.
  intros Hx Hy. unfold PyFloat.le, PyFloat.gt, SFleb, SFltb.
  rewrite (SFcompare_antisym x y).
  destruct x, y; try congruence;
    destruct (SFcompare _ _) as [[] |] eqn:E; cbn; try reflexivity;
    cbn in E; repeat match type of E with
      | context [match ?b with _ => _ end] => destruct b
      end; discriminate.
Qed.

(** X6. Away from NaN the code and the rule of the specification agree: C6
    fails on a NaN only. *)
Theorem validate_stock_data_spec (st : stock) :
  PyFloat.float (clean_numeric_value (current st)) <> Ret S754_nan ->
  validate_stock_data st = spec_accepts st.
Proof.
  intros Hnan. rewrite validate_stock_data_unfold. unfold spec_accepts.
  f_equal.
  destruct (PyFloat.float (clean_numeric_value (current st))) as [x | e];
    [| reflexivity].
  assert (Hx : x <> S754_nan) by congruence.
  unfold spec_in_range. rewrite negb_orb.
  rewrite (not_le_gt x (PyFloat.of_int 0)) by (try assumption; discriminate).
  f_equal. unfold PyFloat.gt, PyFloat.le.
  rewrite <- (negb_involutive (SFleb _ _)). f_equal.
  symmetry. apply (not_le_gt x (PyFloat.of_int 100000));
    [assumption | discriminate].
Qed.

Lemma validate_stock_data_spec_witness :
  validate_stock_data (sample "150.25" "1000")
  = spec_accepts (sample "150.25" "1000").
Proof.
  apply validate_stock_data_spec. vm_compute. discriminate.
Defined.

End NormalizerFacts.

(** ** Persistence gateway *)

Section PersistenceFacts.

Import Normalizer Persistence Batch.

Implicit Types (t db : table) (ts : datetime) (item : stock) (r : row)
  (c : conn) (sr : stored_row).

Example to_decimal_samples :
  map (fun s => match PyFloat.float s with
                | Ret x => to_decimal 10 (Float x)
                | Raise _ => None
                end)
      ("150.25" :: "0.004" :: "0.005" :: "-0.005" :: "99999999.994"
       :: "99999999.995" :: "1e8" :: "5e-324" :: "nan" :: "inf" :: "-0.0"
       :: nil)
  = Some (Hundredths 15025) :: Some (Hundredths 0) :: Some (Hundredths 1)
    :: Some (Hundredths (-1)) :: Some (Hundredths 9999999999) :: None
    :: None :: Some (Hundredths 0) :: Some NaN :: None
    :: Some (Hundredths 0) :: nil.
Proof. vm_compute. reflexivity. Qed.

Example column_samples :
  to_decimal 6 (Int 0) = Some (Hundredths 0) /\
  to_bigint (2 ^ 63 - 1) = Some (2 ^ 63 - 1) /\ to_bigint (2 ^ 63) = None /\
  to_bigint (- 2 ^ 63) = Some (- 2 ^ 63) /\
  to_varchar 5 "abcde  " = Some "abcde" /\ to_varchar 5 "abcdef" = None /\
  map sent three_stocks
  = Some (Row "XYZ" sample_stored) :: Some Rejected
    :: Some (Row "LAST"
               (mk_stored "CEMENT" "KSE100" (Hundredths 14900)
                  (Hundredths 14950) (Hundredths 15100) (Hundredths 14875)
                  (Hundredths 15025) (Hundredths 125) (Hundredths 84) 500))
    :: nil.
Proof. repeat split; vm_compute; reflexivity. Qed.

(** One round of the loop, by what becomes of the record. *)
Lemma insert_all_step ts item (l : list stock) c n :
  insert_all ts (item :: l) c n =
  match sent item with
  | Some (Row k sr) =>
      if failed c then insert_all ts l c n
      else insert_all ts l
             (mk_conn (committed c) (add_row ts k sr (working c)) false) (S n)
  | Some Rejected =>
      insert_all ts l
        (if failed c then c else mk_conn (committed c) (working c) true) n
  | Some NotSent | None => insert_all ts l c n
  end.
Proof.
  cbn [insert_all]. unfold sent, to_row, execute_insert.
  destruct (validate_stock_data item); [| reflexivity].
  destruct (row_data item) as [r | e]; [| reflexivity]. cbn.
  destruct (adapt_insert (symbol item) r); [reflexivity | |];
    destruct (failed c); reflexivity.
Qed.

(** Once a statement has failed, the loop skips every record. *)
Lemma insert_all_failed ts (l : list stock) c n :
  failed c = true -> insert_all ts l c n = (c, n).
Proof.
  intros Hf. revert n. induction l as [| item l IH]; intros n; [reflexivity |].
  rewrite insert_all_step, Hf.
  destruct (sent item) as [[| | k sr] |]; apply IH.
Qed.

(** The loop on a fresh transaction. *)
Lemma insert_all_pending ts (l : list stock) db t n :
  insert_all ts l (mk_conn db t false) n =
  (mk_conn db (pending ts l t) (aborts l), (n + saved l)%nat).
Proof.
  revert t n. induction l as [| item l IH]; intros t n.
  - cbn. now rewrite Nat.add_0_r.
  - rewrite insert_all_step.
    cbn [failed committed working pending saved aborts existsb].
    destruct (sent item) as [[| | k sr] |]; cbn [orb].
    + apply IH.
    + rewrite insert_all_failed by reflexivity. now rewrite Nat.add_0_r.
    + rewrite IH. f_equal. lia.
    + apply IH.
Qed.

(** The rows stored after a call: those of the batch when the connection and
    the commit succeed, the rows of before otherwise. *)
Lemma save_to_postgresql_stored env l ts db :
  (save_to_postgresql env l ts db).2 =
  if connect_ok env && commit_ok env then batch_rows ts l db else db.
Proof.
  unfold save_to_postgresql, save_run, batch_rows.
  destruct l as [| item l]; [now destruct (connect_ok env && commit_ok env) |].
  unfold save_try. rewrite insert_all_pending.
  destruct (connect_ok env); cbn [negb andb]; [| reflexivity].
  destruct (commit_ok env); cbn [negb].
  - unfold commit, save_except, save_finally, log_total_volume.
    cbn [failed committed working].
    destruct (aborts (item :: l)); cbn [committed];
      destruct (0 <? _)%nat; try destruct (summary_ok env); cbn [negb];
      try destruct (total_volume _ _); try destruct (rollback_ok env);
      destruct (close_ok env); reflexivity.
  - unfold save_except, save_finally.
    destruct (rollback_ok env), (close_ok env); reflexivity.
Qed.

(** A key that is present makes the insert a no-op: the row is neither
    written twice nor replaced. *)
Lemma add_row_lookup ts k sr t (key : datetime * string) :
  add_row ts k sr t !! key =
  match t !! key with
  | Some v => Some v
  | None => if decide (key = (ts, k)) then Some sr else None
  end.
Proof.
  unfold add_row. destruct (decide (key = (ts, k))) as [-> | Hk].
  - destruct (t !! (ts, k)) as [v |] eqn:E; [exact E |].
    apply lookup_insert_eq.
  - destruct (t !! (ts, k)) as [v |] eqn:E.
    + now destruct (t !! key).
    + rewrite lookup_insert_ne by congruence. now destruct (t !! key).
Qed.

Lemma add_row_grows ts k sr t :
  t ⊆ add_row ts k sr t /\
  (size (add_row ts k sr t) <= S (size t))%nat.
Proof.
  unfold add_row. destruct (t !! (ts, k)) as [v |] eqn:E.
  - split; [reflexivity | lia].
  - split; [now apply insert_subseteq |].
    rewrite map_size_insert_None by exact E. lia.
Qed.

(** The rows of the transaction after the loop, key by key: a row that was
    there stays, and an absent key of this run gets the row of the first
    accepted statement with its symbol. *)
Lemma pending_lookup ts (l : list stock) t ts' sym :
  pending ts l t !! (ts', sym) =
  match t !! (ts', sym) with
  | Some v => Some v
  | None => if decide (ts' = ts) then first_row l sym else None
  end.
Proof.
  revert t. induction l as [| item l IH]; intros t.
  - cbn. destruct (t !! (ts', sym)); [reflexivity |].
    now destruct (decide (ts' = ts)).
  - cbn [pending first_row].
    destruct (sent item) as [[| | k sr] |]; [apply IH | | | apply IH].
    + destruct (t !! (ts', sym)); [reflexivity |].
      now destruct (decide (ts' = ts)).
    + rewrite IH, add_row_lookup.
      destruct (t !! (ts', sym)) as [v |]; [reflexivity |].
      destruct (decide ((ts', sym) = (ts, k))) as [E | E].
      * injection E as -> ->. now rewrite String.eqb_refl, decide_True.
      * destruct (decide (ts' = ts)) as [-> |]; [| reflexivity].
        destruct (String.eqb_spec k sym) as [Hs |];
          [exfalso; apply E; now rewrite Hs | reflexivity].
Qed.

Lemma batch_rows_lookup ts (l : list stock) db ts' sym :
  batch_rows ts l db !! (ts', sym) =
  match db !! (ts', sym) with
  | Some v => Some v
  | None => if negb (aborts l) && bool_decide (ts' = ts)
            then first_row l sym else None
  end.
Proof.
  unfold batch_rows. destruct (aborts l); cbn [negb andb].
  - now destruct (db !! (ts', sym)).
  - rewrite pending_lookup. destruct (db !! (ts', sym)); [reflexivity |].
    now destruct (decide (ts' = ts));
      [rewrite bool_decide_true | rewrite bool_decide_false].
Qed.








End PersistenceFacts.

(** ** Numeric conversions of a row *)

Section ConversionFacts.

Import Normalizer Persistence.

(** The output of [clean_numeric_value] is a text [float] reads. *)
Lemma float_clean_numeric_value (value : string) :
  exists x, PyFloat.float (clean_numeric_value value) = Ret x.
Proof.
  destruct (clean_numeric_value_cases value) as [-> | (x & _ & ->)].
  - eexists. vm_compute. reflexivity.
  - apply float_str_total.
Qed.

Lemma int_raises (x : spec_float) (e : pyexn) :
  PyFloat.int x = Raise e ->
  x = S754_nan \/ exists sg, x = S754_infinity sg.
Proof. destruct x; cbn; intros H; try discriminate; eauto. Qed.

(** C10, as the code has it.  For every input the output of
    [clean_numeric_value] is ["0"] or the text of the float read from the
    cleaned input, and it reads as a float: [float(clean_numeric_value(v))]
    never raises and neither does a price parameter of the insert.  The
    volume parameter [int(float(clean_numeric_value(v)))] raises only when
    that float is a NaN or an infinity. *)
Theorem clean_numeric_value_parseable (value : string) :
  (clean_numeric_value value = "0" \/
   exists x, PyFloat.float (cleaned value) = Ret x /\
             clean_numeric_value value = PyFloat.str x) /\
  (exists x, PyFloat.float (clean_numeric_value value) = Ret x) /\
  (exists n, price_param value = Ret n) /\
  (forall e, volume_param value = Raise e ->
     exists x, PyFloat.float (clean_numeric_value value) = Ret x /\
               (x = S754_nan \/ exists sg, x = S754_infinity sg)).
Proof.
  split; [apply clean_numeric_value_cases |].
  destruct (float_clean_numeric_value value) as [x Hx].
  unfold price_param, volume_param. rewrite Hx. cbn.
  repeat split.
  - now exists x.
  - destruct (negb _); eauto.
  - intros e H. exists x. split; [reflexivity |].
    destruct (negb _); [| discriminate]. now apply (int_raises x e).
Qed.

(** C10 as stated fails: a volume of [inf] survives the cleaning, the
    conversion to [int] raises [OverflowError], and the record, although
    valid, is skipped by the per-row handler. *)
Lemma volume_conversion_raises :
  clean_numeric_value "inf" = "inf" /\
  volume_param "inf" = Raise OverflowError /\
  validate_stock_data (sample "150.25" "inf") = true /\
  row_data (sample "150.25" "inf") = Raise OverflowError /\
  insert_all run_ts (sample "150.25" "inf" :: nil) (mk_conn ∅ ∅ false) 0
  = (mk_conn ∅ ∅ false, 0%nat).
Proof. repeat split; vm_compute; reflexivity. Qed.

Lemma row_data_volume (item : stock) (r : row) :
  row_data item = Ret r -> volume_param (volume item) = Ret (row_volume r).
Proof.
  unfold row_data.
  destruct (price_param (ldcp item)); [| discriminate].
  destruct (price_param (open item)); [| discriminate].
  destruct (price_param (high item)); [| discriminate].
  destruct (price_param (low item)); [| discriminate].
  destruct (price_param (current item)); [| discriminate].
  destruct (price_param (change item)); [| discriminate].
  destruct (price_param (change_percent item)); [| discriminate].
  destruct (volume_param (volume item)); [| discriminate].
  cbn. intros [= <-]. reflexivity.
Qed.

(** C9, as the code has it.  The volume of every row handed to the insert
    is an integer: 0 when the cleaned text is ["0"], as it is for a
    sentinel or a text [float] rejects, and otherwise the float of the
    cleaned text truncated toward zero. *)
Theorem stored_volume (item : stock) (r : row) :
  row_data item = Ret r ->
  (clean_numeric_value (volume item) = "0" /\ row_volume r = 0 \/
   clean_numeric_value (volume item) <> "0" /\
   exists x, PyFloat.float (clean_numeric_value (volume item)) = Ret x /\
             PyFloat.int x = Ret (row_volume r)) /\
  (forall e, PyFloat.float (cleaned (volume item)) = Raise e ->
             row_volume r = 0).
Proof.
  intros H. apply row_data_volume in H. unfold volume_param in H.
  assert (Hzero : clean_numeric_value (volume item) = "0" ->
                  row_volume r = 0).
  { intros E. rewrite E in H. cbn in H. congruence. }
  split.
  - destruct (String.eqb_spec (clean_numeric_value (volume item)) "0")
      as [E | E]; [left; auto |].
    right. split; [exact E |]. cbn in H.
    destruct (PyFloat.float (clean_numeric_value (volume item))) as [x | e];
      [| discriminate].
    exists x. split; [reflexivity | exact H].
  - intros e He. apply Hzero.
    now apply (clean_numeric_value_unparsable (volume item) e).
Qed.

Lemma stored_volume_witness :
  row_data (sample "150.25" "1,000") = Ret sample_row /\
  (clean_numeric_value "1,000" <> "0" /\
   exists x, PyFloat.float (clean_numeric_value "1,000") = Ret x /\
             PyFloat.int x = Ret 1000).
Proof.
  assert (H : row_data (sample "150.25" "1,000") = Ret sample_row)
    by (vm_compute; reflexivity).
  split; [exact H |].
  destruct (stored_volume _ _ H) as [[[E _] | Hv] _]; [| exact Hv].
  vm_compute in E. discriminate E.
Defined.

(** C9 as stated fails: a valid record whose volume reads [-5] is stored
    with the volume -5. *)
Lemma negative_volume_stored :
  exists r sr,
    validate_stock_data (sample "150.25" "-5") = true /\
    row_data (sample "150.25" "-5") = Ret r /\
    (save_to_postgresql db_works (sample "150.25" "-5" :: nil) run_ts ∅).2
      !! (run_ts, "ABC") = Some sr /\
    col_volume sr = row_volume r /\
    (col_volume sr <? 0) = true.
Proof.
  eexists. eexists. split; [vm_compute; reflexivity |].
  split; [vm_compute; reflexivity |].
  split; [vm_compute; reflexivity |].
  split; vm_compute; reflexivity.
Qed.

End ConversionFacts.

(** ** Extraction chain *)

Section ExtractionFacts.

Import PyStr Extraction.

Lemma extract_manual_complete_result (p : page) :
  extract_manual_complete p = Ret (PyList (manual_result p)).
Proof.
  unfold extract_manual_complete, manual_result.
  destruct (manual_rows p); reflexivity.
Qed.

(** C4. For every behaviour of the browser, [extract_correct_psx_data]
    returns a list: it neither raises nor returns null.  When the script
    raises, returns null or yields no record, the result is that of the walk
    over the rows; and that one is the empty list when the walk fails too. *)
Theorem extract_correct_psx_data_total (p : page) :
  extract_correct_psx_data p =
  Ret (PyList
         match script_run p with
         | Ret (Some tables) =>
             match extract_script tables with
             | nil => manual_result p
             | st :: l => st :: l
             end
         | Ret None | Raise _ => manual_result p
         end)
  /\ manual_result p =
     match manual_rows p with
     | Ret rows => manual_loop rows
     | Raise _ => nil
     end.
Proof.
  split; [| reflexivity].
  unfold extract_correct_psx_data, execute_script.
  destruct (script_run p) as [[tables |] | e]; cbn;
    try (destruct (extract_script tables); cbn);
    rewrite ?extract_manual_complete_result; reflexivity.
Qed.

Lemma eqb_contains (k s : string) :
  String.eqb s k = true -> contains k s = true.
Proof.
  intros H. apply String.eqb_eq in H. subst s.
  destruct k as [| c k]; [reflexivity |].
  cbn [contains]. apply orb_true_iff. left.
  induction (String c k) as [| a r IH]; cbn; [reflexivity |].
  now rewrite Ascii.eqb_refl.
Qed.

Lemma prefix_contains (k k' s : string) :
  startswith k k' = true -> String.eqb s k' = true -> contains k s = true.
Proof.
  intros Hp H. apply String.eqb_eq in H. subst s.
  destruct k'; cbn [contains]; now rewrite Hp.
Qed.

(** The block-list of the second strategy is that of the script and four
    containment tests more. *)
Lemma manual_blocked_js_blocked (sym : string) :
  manual_blocked sym = js_blocked sym || extra_blocked sym.
Proof.
  unfold manual_blocked, js_blocked, extra_blocked, manual_keywords.
  cbn [existsb].
  pose proof (eqb_contains "PSX" sym) as HP.
  pose proof (prefix_contains "KSE" "KSE-100" sym eq_refl) as HK.
  destruct (String.eqb sym "PSX");
    [rewrite (HP eq_refl) |]; clear HP;
  (destruct (String.eqb sym "KSE-100");
    [rewrite (HK eq_refl) |]; clear HK);
  destruct (is_empty sym), (20 <? String.length sym)%nat; cbn;
    try reflexivity;
  destruct (contains "Symbol" sym), (contains "Last" sym); cbn;
    try reflexivity;
  destruct (contains "Open" sym), (contains "High" sym); cbn;
    try reflexivity;
  destruct (contains "Low" sym), (contains "Current" sym); cbn;
    try reflexivity;
  destruct (contains "Change" sym), (contains "Volume" sym); cbn;
    try reflexivity;
  destruct (contains "PSX" sym), (contains "KSE" sym); reflexivity.
Qed.

Lemma blank_is_space (c : ascii) : is_blank c = true -> is_space c = true.
Proof.
  destruct c as [[] [] [] [] [] [] [] []]; intros H;
    try discriminate H; reflexivity.
Qed.

Lemma rstrip_trim_end (s : string) : rstrip (trim_end s) = rstrip s.
Proof.
  induction s as [| c s IH]; [reflexivity |]. cbn [trim_end rstrip].
  destruct (is_empty (trim_end s)) eqn:He; cbn [andb].
  - destruct (trim_end s); [| discriminate He]. cbn [rstrip] in IH.
    rewrite <- IH. cbn [is_empty andb].
    destruct (is_blank c) eqn:Hc.
    + now rewrite (blank_is_space c Hc).
    + cbn [rstrip is_empty andb]. reflexivity.
  - cbn [rstrip]. now rewrite IH.
Qed.

Lemma strip_trim_start (s : string) :
  lstrip (rstrip (trim_start s)) = lstrip (rstrip s).
Proof.
  induction s as [| c s IH]; [reflexivity |]. cbn [trim_start].
  destruct (is_blank c) eqn:Hc; [| reflexivity].
  rewrite IH. cbn [rstrip]. rewrite (blank_is_space c Hc), andb_true_r.
  destruct (rstrip s); cbn [is_empty lstrip]; [reflexivity |].
  now rewrite (blank_is_space c Hc).
Qed.

(** Python's [strip] removes what JavaScript's [trim] removes, and the
    separators 28..31 besides. *)
Lemma strip_trim (s : string) : strip (trim s) = strip s.
Proof.
  unfold strip, trim. now rewrite strip_trim_start, rstrip_trim_end.
Qed.

(** The symbol the second strategy reads is the symbol the script reads,
    stripped once more. *)
Lemma manual_cell_js_cell (cells : list string) :
  manual_cell cells 0 "" = strip (js_cell cells 0 "").
Proof.
  unfold manual_cell, js_cell.
  destruct (nth_error cells 0) as [c |]; [| reflexivity].
  destruct (trim c) eqn:Ht; cbn [is_empty].
  - now rewrite <- (strip_trim c), Ht.
  - now rewrite <- Ht, strip_trim.
Qed.

Lemma manual_keeps_unfold (cells : list string) :
  manual_keeps cells =
  (9 <=? List.length cells)%nat
  && negb (js_blocked (manual_cell cells 0 ""))
  && negb (extra_blocked (manual_cell cells 0 "")).
Proof.
  unfold manual_keeps. rewrite manual_blocked_js_blocked.
  rewrite Nat.ltb_antisym, negb_involutive, negb_orb.
  now rewrite andb_assoc.
Qed.

(** C5, as the code has it.  Both strategies ask for at least nine cells, a
    symbol that is not empty and at most 20 characters long, and pass over
    the symbols containing [Symbol], [Last], [Open], [High], [Low] or
    [Volume].  They differ twice.  The second strategy also passes over
    every symbol that contains [Current], [Change], [PSX] or [KSE], where
    the script only passes over the symbols equal to [PSX] or [KSE-100].
    And the second strategy reads the symbol with Python's [strip], the
    script with JavaScript's [trim], which leaves a separator 28..31 at
    the ends in place: the symbol of the second strategy is that of the
    script stripped once more.  So the second strategy keeps a row exactly
    when the row has nine cells and its own symbol passes the block-list of
    the script and contains none of the four words; and on a row where both
    read the same symbol it keeps the row exactly when the script keeps it
    and the symbol contains none of the four words. *)
Theorem manual_keeps_js_keeps (cells : list string) :
  manual_cell cells 0 "" = strip (js_cell cells 0 "")
  /\ manual_keeps cells =
     (9 <=? List.length cells)%nat
     && negb (js_blocked (manual_cell cells 0 ""))
     && negb (extra_blocked (manual_cell cells 0 ""))
  /\ (manual_cell cells 0 "" = js_cell cells 0 "" ->
      manual_keeps cells =
      js_keeps cells && negb (extra_blocked (js_cell cells 0 ""))).
Proof.
  split; [apply manual_cell_js_cell |].
  split; [apply manual_keeps_unfold |].
  intros H. rewrite manual_keeps_unfold, H. reflexivity.
Qed.

Lemma manual_keeps_js_keeps_witness :
  manual_cell psxa_row 0 "" = js_cell psxa_row 0 ""
  /\ manual_keeps psxa_row =
     js_keeps psxa_row && negb (extra_blocked (js_cell psxa_row 0 "")).
Proof.
  split; [reflexivity |].
  apply (proj2 (proj2 (manual_keeps_js_keeps psxa_row))). reflexivity.
Defined.

(** C5 as stated fails: a row of nine cells whose symbol is [PSXA] is kept
    by the script and passed over by the second strategy. *)
Lemma row_filters_differ :
  exists cells : list string,
    js_keeps cells = true /\ manual_keeps cells = false.
Proof.
  exists psxa_row. split; reflexivity.
Qed.

(** The two ways of trimming tell on a row whose first cell is the single
    separator 28: the script reads a symbol of one character and keeps the
    row, the second strategy reads the empty symbol and passes it over,
    although the symbol contains none of the four words. *)
Lemma separator_row_differs :
  js_keeps separator_row = true /\ manual_keeps separator_row = false
  /\ extra_blocked (js_cell separator_row 0 "") = false.
Proof.
  repeat split; reflexivity.
Qed.

End ExtractionFacts.

(** ** Window scheduler *)

Section SchedulerFacts.

Import Clock Scheduler.

Lemma to_us_of_us (t : Z) : to_us (of_us t) = t.
Proof.
  unfold to_us, of_us, us_per_day, us_per_minute; cbn [ordinal hour minute second microsecond].
  Z.div_mod_to_equations. lia.
Qed.

Lemma of_us_wf (t : Z) : wf (of_us t).
Proof.
  unfold wf, of_us, us_per_day, us_per_minute; cbn [ordinal hour minute second microsecond].
  Z.div_mod_to_equations. lia.
Qed.

Lemma ordinal_add_days (d : datetime) (n : Z) :
  wf d -> ordinal (add_timedelta d n 0) = ordinal d + n.
Proof.
  unfold wf, add_timedelta, to_us, of_us, us_per_day, us_per_minute.
  cbn [ordinal hour minute second microsecond]. intros H.
  Z.div_mod_to_equations. lia.
Qed.

Ltac clock_arith :=
  unfold wf, get_next_scrape_time, replace_seconds, replace_time,
    add_timedelta, to_us, of_us, weekday, SCRAPE_INTERVAL_MINUTES,
    us_per_day, us_per_minute in *;
  cbn [ordinal hour minute second microsecond] in *.

(** C3. For every clock reading, [get_next_scrape_time] returns an instant
    whose minute is a multiple of five, whose seconds and microseconds are
    zero, and which is strictly later than the reading (by at most five
    minutes); when the reading is exactly on a five-minute boundary the
    result is exactly five minutes later. *)
Theorem get_next_scrape_time_aligned (now_pk : datetime) :
  wf now_pk ->
  let next_time := get_next_scrape_time now_pk in
  wf next_time /\
  minute next_time mod 5 = 0 /\ second next_time = 0 /\
  microsecond next_time = 0 /\
  to_us now_pk < to_us next_time <= to_us now_pk + 5 * us_per_minute /\
  (minute now_pk mod 5 = 0 -> second now_pk = 0 -> microsecond now_pk = 0 ->
   next_time = add_timedelta now_pk 0 5).
Proof.
  intros Hwf next_time. subst next_time.
  assert (Hk : exists k, 1 <= k <= 5 /\ (minute now_pk + k) mod 5 = 0 /\
            (minute now_pk mod 5 = 0 -> k = 5) /\
            get_next_scrape_time now_pk
            = replace_seconds (add_timedelta now_pk 0 k)).
  { unfold get_next_scrape_time, SCRAPE_INTERVAL_MINUTES.
    destruct (Z.eqb_spec ((5 - minute now_pk mod 5) mod 5) 0) as [E | E].
    - exists 5. repeat split; try lia.
      revert E. Z.div_mod_to_equations. lia.
    - exists ((5 - minute now_pk mod 5) mod 5). repeat split.
      + revert E. Z.div_mod_to_equations. lia.
      + Z.div_mod_to_equations. lia.
      + revert E. Z.div_mod_to_equations. lia.
      + revert E. Z.div_mod_to_equations. lia. }
  destruct Hk as (k & Hk & Hmod & Hfive & ->).
  clock_arith. destruct Hwf as (Hh & Hm & Hs & Hu).
  repeat split; try reflexivity.
  1-4, 6-7: Z.div_mod_to_equations; lia.
  - revert Hmod. Z.div_mod_to_equations. lia.
  - intros H5 H0 H1. rewrite (Hfive H5), H0, H1.
    f_equal; Z.div_mod_to_equations; lia.
Qed.

Lemma get_next_scrape_time_aligned_witness :
  wf monday_1005 /\
  get_next_scrape_time monday_1005 = mk_datetime 738886 10 10 0 0.
Proof.
  assert (Hwf : wf monday_1005) by (unfold wf, monday_1005; simpl; lia).
  split; [exact Hwf |].
  destruct (get_next_scrape_time_aligned monday_1005 Hwf)
    as (_ & _ & _ & _ & _ & Hb).
  rewrite Hb by reflexivity. reflexivity.
Defined.

Lemma of_us_to_us (d : datetime) : wf d -> of_us (to_us d) = d.
Proof.
  destruct d as [o h m sec u]. clock_arith. intros (Hh & Hm & Hs & Hu).
  f_equal; Z.div_mod_to_equations; lia.
Qed.

Lemma add_timedelta_days (d : datetime) (a b : Z) :
  add_timedelta (add_timedelta d a 0) b 0 = add_timedelta d (a + b) 0.
Proof.
  unfold add_timedelta. rewrite to_us_of_us. f_equal. lia.
Qed.

Lemma add_timedelta_wf (d : datetime) (a b : Z) : wf (add_timedelta d a b).
Proof. apply of_us_wf. Qed.

Lemma weekday_add_days (d : datetime) (n : Z) :
  wf d -> weekday (add_timedelta d n 0) = (ordinal d + n + 6) mod 7.
Proof. intros H. unfold weekday. now rewrite ordinal_add_days. Qed.

(** The weekend loop ends within two rounds: it stops at the first day from
    [d] on that is not a Saturday or a Sunday. *)
Lemma skip_weekend_spec (d : datetime) :
  wf d ->
  exists n, 0 <= n <= 2 /\
    skip_weekend 2 d = Some (add_timedelta d n 0) /\
    (ordinal d + n + 6) mod 7 < 5 /\
    forall i, 0 <= i < n -> 5 <= (ordinal d + i + 6) mod 7.
Proof.
  intros Hwf. cbn [skip_weekend].
  rewrite add_timedelta_days, !weekday_add_days by (apply Hwf).
  unfold weekday. change (1 + 1) with 2.
  destruct (Z.leb_spec 5 ((ordinal d + 6) mod 7)) as [H0 | H0].
  - destruct (Z.leb_spec 5 ((ordinal d + 1 + 6) mod 7)) as [H1 | H1].
    + destruct (Z.leb_spec 5 ((ordinal d + 2 + 6) mod 7)) as [H2 | H2].
      * exfalso. revert H0 H1 H2. Z.div_mod_to_equations. lia.
      * exists 2. repeat split; try lia; try reflexivity.
        intros i Hi. assert (i = 0 \/ i = 1) as [-> | ->] by lia.
        -- now rewrite Z.add_0_r.
        -- exact H1.
    + exists 1. repeat split; try lia; try reflexivity.
      intros i Hi. assert (i = 0) as -> by lia. now rewrite Z.add_0_r.
  - exists 0. rewrite Z.add_0_r. repeat split; try lia.
    unfold add_timedelta. rewrite Z.mul_0_l, !Z.add_0_r.
    now rewrite of_us_to_us.
Qed.

(** What the closed-market branch computes, for every clock reading: the
    loop ends, and the result is 09:30 on the first business day strictly
    after the day of the reading.  It is never a time of the same day. *)
Theorem next_open_next_business_day (now_pk : datetime) :
  wf now_pk ->
  exists r, next_open 2 now_pk = Some r /\
    ordinal now_pk < ordinal r <= ordinal now_pk + 3 /\
    weekday r < 5 /\
    (hour r, minute r, second r, microsecond r) = (9, 30, 0, 0) /\
    forall day, ordinal now_pk < day < ordinal r -> 5 <= (day + 6) mod 7.
Proof.
  intros Hwf. unfold next_open.
  destruct (skip_weekend_spec (add_timedelta now_pk 1 0))
    as (n & Hn & -> & Hday & Hskip); [apply add_timedelta_wf |].
  rewrite ordinal_add_days in Hday, Hskip by exact Hwf.
  rewrite add_timedelta_days. cbn.
  eexists. split; [reflexivity |].
  unfold weekday, replace_time; cbn [ordinal hour minute second microsecond].
  rewrite ordinal_add_days by exact Hwf.
  repeat split; try lia.
  - replace (ordinal now_pk + (1 + n) + 6) with (ordinal now_pk + 1 + n + 6)
      by lia. exact Hday.
  - intros day Hd.
    replace day with (ordinal now_pk + 1 + (day - ordinal now_pk - 1)) by lia.
    apply Hskip. lia.
Qed.

Lemma next_open_next_business_day_witness :
  wf monday_0800 /\
  exists r, next_open 2 monday_0800 = Some r /\
    ordinal monday_0800 < ordinal r.
Proof.
  assert (Hwf : wf monday_0800) by (unfold wf, monday_0800; simpl; lia).
  split; [exact Hwf |].
  destruct (next_open_next_business_day monday_0800 Hwf)
    as (r & Hr & Hord & _).
  exists r. split; [exact Hr | lia].
Defined.

(** C2 at Monday 08:00.  The market is closed, the day is a business day and
    the reading is before the open time 09:30 of that day; the instant the
    scheduler computes is nevertheless 09:30 of Tuesday, not today's open
    time. *)
Theorem next_open_before_open_skips_today :
  is_market_open monday_0800 = false /\
  weekday monday_0800 = 0 /\
  ltb monday_0800 (replace_time monday_0800 9 30) = true /\
  next_open 2 monday_0800 = Some (mk_datetime 738887 9 30 0 0) /\
  next_open 2 monday_0800 <> Some (replace_time monday_0800 9 30).
Proof.
  repeat split; try reflexivity.
  vm_compute. discriminate.
Qed.

End SchedulerFacts.

(** ** The scheduling loop *)

Section LoopFacts.

Import Clock Scheduler Loop.

Ltac loop_arith :=
  unfold wf, open_wait, time_of_day, is_market_open, get_next_scrape_time,
    replace_seconds, replace_time, add_timedelta, leb, ltb, to_us, of_us,
    weekday, PSX_MARKET_OPEN, PSX_MARKET_CLOSE, SCRAPE_INTERVAL_MINUTES,
    us_per_day, us_per_minute in *;
  cbn [ordinal hour minute second microsecond] in *.

(** The market is open exactly on Monday to Friday from 09:30:00 to
    15:30:00, both ends included; on a Saturday or Sunday it is closed
    whatever the time of day. *)
Lemma is_market_open_window (now_pk : datetime) :
  is_market_open now_pk =
  (weekday now_pk <? 5) && (34200000000 <=? time_of_day now_pk)
  && (time_of_day now_pk <=? 55800000000).
Proof.
  unfold is_market_open. rewrite Z.leb_antisym.
  destruct (weekday now_pk <? 5); [| reflexivity]. cbn [negb andb].
  loop_arith. f_equal.
  - destruct (Z.leb_spec (ordinal now_pk * 86400000000 +
                ((9 * 60 + 30) * 60 + 0) * 1000000 + 0)
               (ordinal now_pk * 86400000000 +
                ((hour now_pk * 60 + minute now_pk) * 60 + second now_pk)
                * 1000000 + microsecond now_pk));
      symmetry; [apply Z.leb_le | apply Z.leb_gt]; lia.
  - destruct (Z.leb_spec
               (ordinal now_pk * 86400000000 +
                ((hour now_pk * 60 + minute now_pk) * 60 + second now_pk)
                * 1000000 + microsecond now_pk)
               (ordinal now_pk * 86400000000 +
                ((15 * 60 + 30) * 60 + 0) * 1000000 + 0));
      symmetry; [apply Z.leb_le | apply Z.leb_gt]; lia.
Qed.

(** The five-minute grid, in microseconds since day 0. *)
Lemma next_scrape_closed_form (now_pk : datetime) :
  wf now_pk ->
  to_us (get_next_scrape_time now_pk)
  = (to_us now_pk / 300000000 + 1) * 300000000.
Proof.
  intros Hwf.
  assert (Hk : exists k, 1 <= k <= 5 /\ (minute now_pk + k) mod 5 = 0 /\
            get_next_scrape_time now_pk
            = replace_seconds (add_timedelta now_pk 0 k)).
  { unfold get_next_scrape_time, SCRAPE_INTERVAL_MINUTES.
    destruct (Z.eqb_spec ((5 - minute now_pk mod 5) mod 5) 0) as [E | E].
    - exists 5. repeat split; try lia. revert E. Z.div_mod_to_equations. lia.
    - exists ((5 - minute now_pk mod 5) mod 5).
      repeat split; revert E; Z.div_mod_to_equations; lia. }
  destruct Hk as (k & Hk & Hmod & ->).
  loop_arith. destruct Hwf as (Hh & Hm & Hs & Hu).
  revert Hmod. Z.div_mod_to_equations. lia.
Qed.

(** X1. [get_next_scrape_time] returns the first instant of the five-minute
    grid that is strictly later than the clock reading: it is on the grid,
    later than the reading, and no grid instant lies between the two. *)
Theorem get_next_scrape_time_least (now_pk : datetime) (t : Z) :
  wf now_pk ->
  to_us (get_next_scrape_time now_pk) mod 300000000 = 0 /\
  to_us now_pk < to_us (get_next_scrape_time now_pk) /\
  (to_us now_pk < t -> t mod 300000000 = 0 ->
   to_us (get_next_scrape_time now_pk) <= t).
Proof.
  intros Hwf. rewrite (next_scrape_closed_form now_pk Hwf).
  repeat split; try intros H1 H2; Z.div_mod_to_equations; lia.
Qed.

Lemma get_next_scrape_time_least_witness :
  wf monday_100730 /\
  to_us monday_100730 < to_us (get_next_scrape_time monday_100730)
  /\ to_us (get_next_scrape_time monday_100730)
     = to_us (mk_datetime 738886 10 10 0 0).
Proof.
  assert (Hwf : wf monday_100730) by (unfold wf, monday_100730; simpl; lia).
  split; [exact Hwf |].
  destruct (get_next_scrape_time_least monday_100730 0 Hwf) as (_ & H & _).
  split; [exact H | reflexivity].
Defined.

(** X3. The open-market branch always sleeps a positive time of at most five
    minutes, however late the second reading of the clock is: the wait until
    the next grid instant when that is still ahead, five minutes
    otherwise. *)
Theorem open_wait_bounds (c2 c3 : datetime) :
  wf c2 -> wf c3 -> to_us c2 <= to_us c3 ->
  0 < open_wait c2 c3 <= 300000000 /\
  (to_us c3 < to_us (get_next_scrape_time c2) ->
   to_us c3 + open_wait c2 c3 = to_us (get_next_scrape_time c2)).
Proof.
  intros H2 H3 Hle. unfold open_wait.
  pose proof (next_scrape_closed_form c2 H2) as E.
  set (next := to_us (get_next_scrape_time c2)) in *.
  unfold SCRAPE_INTERVAL_MINUTES.
  destruct (Z.ltb_spec 0 (next - to_us c3)) as [Hp | Hp].
  - split; [| lia]. split; [lia |].
    assert (next <= to_us c2 + 300000000)
      by (rewrite E; Z.div_mod_to_equations; lia).
    lia.
  - split; [lia | intros; lia].
Qed.

Lemma open_wait_bounds_witness :
  0 < open_wait monday_1005 monday_100730 <= 300000000
  /\ open_wait monday_1005 monday_100730 = 150000000.
Proof.
  assert (H2 : wf monday_1005) by (unfold wf, monday_1005; simpl; lia).
  assert (H3 : wf monday_100730) by (unfold wf, monday_100730; simpl; lia).
  assert (Hle : to_us monday_1005 <= to_us monday_100730)
    by (vm_compute; discriminate).
  destruct (open_wait_bounds monday_1005 monday_100730 H2 H3 Hle) as [H _].
  split; [exact H | reflexivity].
Defined.

(** X5. The instant the closed-market branch sleeps until is 09:30 of the first
    business day after the day of the reading, and it is inside the market
    window: when the scheduler wakes up there, [is_market_open] holds. *)
Theorem next_open_in_window (now_pk : datetime) :
  wf now_pk ->
  exists r, next_open 2 now_pk = Some r /\ is_market_open r = true /\
    time_of_day r = 34200000000 /\ ordinal now_pk < ordinal r /\
    forall day, ordinal now_pk < day < ordinal r -> 5 <= (day + 6) mod 7.
Proof.
  intros Hwf.
  destruct (next_open_next_business_day now_pk Hwf)
    as (r & Hr & Hord & Hday & Htime & Hbetween).
  exists r. split; [exact Hr |].
  rewrite is_market_open_window. injection Htime as Hh Hm Hs Hu.
  unfold time_of_day. rewrite Hh, Hm, Hs, Hu.
  apply Z.ltb_lt in Hday. rewrite Hday.
  repeat split; [lia | exact Hbetween].
Qed.

Lemma next_open_in_window_witness :
  wf friday_1531 /\
  exists r, next_open 2 friday_1531 = Some r /\ is_market_open r = true /\
    ordinal r = 738893.
Proof.
  assert (Hwf : wf friday_1531) by (unfold wf, friday_1531; simpl; lia).
  split; [exact Hwf |].
  destruct (next_open_in_window friday_1531 Hwf) as (r & Hr & Ho & _).
  exists r. repeat split; [exact Hr | exact Ho |].
  vm_compute in Hr. injection Hr as <-. reflexivity.
Defined.

(** X4. The closed-market branch always hands [time.sleep] a positive time:
    more than nine and a half hours and at most three days and nine and a
    half hours, and waking up after it lands exactly on the instant
    computed. *)
Theorem closed_wait_bounds (now_pk : datetime) :
  wf now_pk ->
  exists w r, closed_wait 2 now_pk = Some w /\ next_open 2 now_pk = Some r /\
    to_us now_pk + w = to_us r /\
    34200000000 < w <= 3 * 86400000000 + 34200000000.
Proof.
  intros Hwf.
  destruct (next_open_next_business_day now_pk Hwf)
    as (r & Hr & Hord & _ & Htime & _).
  unfold closed_wait. rewrite Hr. cbn.
  exists (to_us r - to_us now_pk), r.
  repeat split; try lia; injection Htime as Hh Hm Hs Hu;
    loop_arith; rewrite Hh, Hm, Hs, Hu; lia.
Qed.

Lemma closed_wait_bounds_witness :
  wf friday_1531 /\
  exists w r, closed_wait 2 friday_1531 = Some w /\
    next_open 2 friday_1531 = Some r /\
    to_us friday_1531 + w = to_us r /\
    34200000000 < w <= 3 * 86400000000 + 34200000000.
Proof.
  assert (Hwf : wf friday_1531) by (unfold wf, friday_1531; simpl; lia).
  split; [exact Hwf | exact (closed_wait_bounds friday_1531 Hwf)].
Defined.

(** X2. During market hours the next scrape time is inside the window again,
    unless the reading is the closing instant 15:30:00 itself: the loop
    keeps firing on the grid up to and including 15:30. *)
Theorem next_scrape_in_window (now_pk : datetime) :
  wf now_pk -> is_market_open now_pk = true ->
  is_market_open (get_next_scrape_time now_pk)
  = (time_of_day now_pk <? 55800000000).
Proof.
  intros Hwf Hopen.
  assert (Hk : exists k, 1 <= k <= 5 /\ (minute now_pk + k) mod 5 = 0 /\
            get_next_scrape_time now_pk
            = replace_seconds (add_timedelta now_pk 0 k)).
  { unfold get_next_scrape_time, SCRAPE_INTERVAL_MINUTES.
    destruct (Z.eqb_spec ((5 - minute now_pk mod 5) mod 5) 0) as [E | E].
    - exists 5. repeat split; try lia. revert E. Z.div_mod_to_equations. lia.
    - exists ((5 - minute now_pk mod 5) mod 5).
      repeat split; revert E; Z.div_mod_to_equations; lia. }
  destruct Hk as (k & Hk & Hmod & E).
  rewrite is_market_open_window in Hopen |- *. rewrite E. clear E.
  apply andb_true_iff in Hopen as [Hopen Hhi].
  apply andb_true_iff in Hopen as [Hday Hlo].
  apply Z.ltb_lt in Hday. apply Z.leb_le in Hlo, Hhi.
  loop_arith. destruct Hwf as (Hh & Hm & Hs & Hu).
  set (t := ordinal now_pk * 86400000000 +
            ((hour now_pk * 60 + minute now_pk) * 60 + second now_pk)
            * 1000000 + microsecond now_pk + 0 * 86400000000
            + k * 60000000) in *.
  assert (Ho : t / 86400000000 = ordinal now_pk)
    by (subst t; Z.div_mod_to_equations; lia).
  assert (Hhm : (t mod 86400000000 / 3600000000 * 60
                 + t mod 86400000000 / 60000000 mod 60)
                = hour now_pk * 60 + minute now_pk + k)
    by (subst t; Z.div_mod_to_equations; lia).
  rewrite Ho.
  replace (((t mod 86400000000 / 3600000000 * 60
             + t mod 86400000000 / 60000000 mod 60) * 60 + 0) * 1000000 + 0)
    with ((hour now_pk * 60 + minute now_pk + k) * 60000000) by lia.
  apply Z.ltb_lt in Hday. rewrite Hday. cbn [andb].
  destruct (Z.ltb_spec
              (((hour now_pk * 60 + minute now_pk) * 60 + second now_pk)
               * 1000000 + microsecond now_pk) 55800000000) as [Hlt | Hge].
  - apply andb_true_iff. split; apply Z.leb_le;
      revert Hmod; Z.div_mod_to_equations; lia.
  - apply andb_false_iff. right. apply Z.leb_gt.
    revert Hmod. Z.div_mod_to_equations. lia.
Qed.

Lemma next_scrape_in_window_witness :
  is_market_open (get_next_scrape_time monday_100730) = true.
Proof.
  assert (Hwf : wf monday_100730) by (unfold wf, monday_100730; simpl; lia).
  rewrite (next_scrape_in_window monday_100730 Hwf eq_refl). reflexivity.
Defined.

End LoopFacts.


(** ** What one batch writes *)

Section BatchFacts.

Import Normalizer Persistence Batch.

Implicit Types (t db : table) (ts : datetime) (item : stock) (r : row)
  (sr : stored_row).

Lemma sent_to_row item (o : insert_outcome) :
  sent item = Some o ->
  exists r, to_row item = Some r /\ adapt_insert (symbol item) r = o.
Proof.
  unfold sent. destruct (to_row item) as [r |]; [| discriminate].
  cbn. intros [= <-]. eauto.
Qed.

(** X9. The stored rows after a call, key by key.  A row that was stored before
    is never replaced; rows under another timestamp are never touched; when
    the call is committed and the server rejects no statement of the batch,
    an absent key of this run gets the row the server makes of the first
    record of the batch with that symbol that passes validation and
    conversion and can be sent; and when the server rejects a statement,
    nothing of the batch is stored. *)
Theorem save_to_postgresql_lookup env (l : list stock) ts db ts' sym :
  (save_to_postgresql env l ts db).2 !! (ts', sym) =
  match db !! (ts', sym) with
  | Some v => Some v
  | None =>
      if connect_ok env && commit_ok env && negb (aborts l)
         && bool_decide (ts' = ts)
      then first_row l sym else None
  end.
Proof.
  rewrite save_to_postgresql_stored.
  destruct (connect_ok env && commit_ok env); cbn [andb].
  - apply batch_rows_lookup.
  - now destruct (db !! (ts', sym)).
Qed.

Lemma save_to_postgresql_lookup_witness :
  aborts three_stocks = true /\
  (save_to_postgresql db_works three_stocks run_ts ∅).2 !! (run_ts, "XYZ")
  = None /\
  (save_to_postgresql db_works two_stocks run_ts ∅).2 !! (run_ts, "ABC")
  = Some sample_stored.
Proof.
  split; [vm_compute; reflexivity |].
  rewrite !save_to_postgresql_lookup. split; vm_compute; reflexivity.
Defined.

(** The summary finds a row exactly when one is stored under the
    timestamp. *)
Lemma has_rows_spec ts t :
  has_rows ts t = true <-> exists sym v, t !! (ts, sym) = Some v.
Proof.
  unfold has_rows, total_volume.
  destruct (filter _ (map_to_list t)) as [| kv rows] eqn:E.
  - split; [discriminate |]. intros (sym & v & H). exfalso.
    apply elem_of_map_to_list in H.
    assert (Hin : (ts, sym, v) ∈ filter (fun kv => kv.1.1 = ts)
                                   (map_to_list t))
      by (apply list_elem_of_filter; split; [reflexivity | exact H]).
    rewrite E in Hin. now apply elem_of_nil in Hin.
  - split; [intros _ | reflexivity].
    assert (Hin : kv ∈ filter (fun kv => kv.1.1 = ts) (map_to_list t))
      by (rewrite E; left).
    apply list_elem_of_filter in Hin as [Hts Hin].
    destruct kv as [[ts0 sym] v]. cbn in Hts. subst ts0.
    apply elem_of_map_to_list in Hin. eauto.
Qed.

Lemma first_row_covers (l : list stock) item k sr :
  aborts l = false -> In item l -> sent item = Some (Row k sr) ->
  is_Some (first_row l k).
Proof.
  induction l as [| item' l IH]; intros Ha Hin Hs; [destruct Hin |].
  cbn [aborts existsb] in Ha. apply orb_false_iff in Ha as [Ha Hl].
  cbn [first_row]. destruct Hin as [-> | Hin].
  - rewrite Hs, String.eqb_refl. eauto.
  - destruct (sent item') as [[| | k' sr'] |]; try discriminate;
      try (now apply IH).
    destruct (String.eqb k' k); [eauto | now apply IH].
Qed.

Lemma saved_first_row (l : list stock) :
  aborts l = false -> (0 < saved l)%nat ->
  exists item k sr, In item l /\ sent item = Some (Row k sr).
Proof.
  induction l as [| item l IH]; cbn [saved]; [lia |]. intros Ha Hs.
  cbn [aborts existsb] in Ha. apply orb_false_iff in Ha as [Ha Hl].
  destruct (sent item) as [[| | k sr] |] eqn:E; try discriminate;
    try (destruct (IH Hl Hs) as (i & k' & sr' & Hin & Hi);
         exists i, k', sr'; split; [now right | exact Hi]).
  exists item, k, sr. split; [now left | exact E].
Qed.

(** When no statement is rejected every accepted one has its key stored. *)
Lemma batch_rows_covers ts (l : list stock) db item k sr :
  aborts l = false -> In item l -> sent item = Some (Row k sr) ->
  is_Some (batch_rows ts l db !! (ts, k)).
Proof.
  intros Ha Hin Hs. rewrite batch_rows_lookup, Ha. cbn [negb andb].
  rewrite bool_decide_true by reflexivity.
  destruct (db !! (ts, k)); [eauto |].
  now apply (first_row_covers l item k sr).
Qed.

Lemma save_to_postgresql_returned env (l : list stock) ts db :
  (save_to_postgresql env l ts db).1 =
  if Nat.eqb (length l) 0 || negb (connect_ok env) then Ret false
  else if commit_ok env
          && (Nat.eqb (saved l) 0
              || summary_ok env && has_rows ts (batch_rows ts l db))
       then (if close_ok env then Ret true else Raise DatabaseError)
       else (if rollback_ok env && close_ok env then Ret false
             else Raise DatabaseError).
Proof.
  unfold save_to_postgresql, save_run.
  destruct l as [| item l]; [reflexivity |].
  cbn [length Nat.eqb orb]. unfold save_try. rewrite insert_all_pending.
  destruct (connect_ok env); cbn [negb]; [| reflexivity].
  destruct (commit_ok env); cbn [negb andb].
  - assert (Hm : committed
                   (commit (mk_conn db (pending ts (item :: l) db)
                              (aborts (item :: l))))
                 = batch_rows ts (item :: l) db)
      by (unfold commit, batch_rows; cbn [failed];
          now destruct (aborts (item :: l))).
    rewrite Hm. rewrite Nat.add_0_l. unfold has_rows.
    destruct (saved (item :: l)) as [| n];
      cbn [Nat.ltb Nat.leb Nat.eqb orb].
    + unfold save_finally. now destruct (close_ok env).
    + destruct (summary_ok env); cbn [negb andb].
      * destruct (total_volume ts (batch_rows ts (item :: l) db));
          cbn [log_total_volume]; unfold save_except, save_finally;
          destruct (rollback_ok env), (close_ok env); reflexivity.
      * unfold save_except, save_finally.
        destruct (rollback_ok env), (close_ok env); reflexivity.
  - unfold save_except, save_finally.
    destruct (rollback_ok env), (close_ok env); reflexivity.
Qed.

(** X10. The value returned.  An empty batch or a failed connection gives
    [False].  Otherwise the [try] block succeeds when the commit succeeds
    and either no statement succeeded, so that no summary is asked for, or
    the summary query succeeds and finds a row of the run; it does find one
    when no statement was rejected.  After a success the call returns
    [True], after a failure [False], unless the rollback or a [close] call
    raises, which it then lets out.  So a batch of invalid records is
    reported as a success; and a batch with a rejected statement, of which
    nothing is stored, is reported as a failure when a statement succeeded
    before the rejected one and no row of the run was there before, and as
    a success when none did. *)
Theorem save_to_postgresql_result env (l : list stock) ts db :
  (save_to_postgresql env l ts db).1 =
  (if Nat.eqb (length l) 0 || negb (connect_ok env) then Ret false
   else if commit_ok env
           && (Nat.eqb (saved l) 0
               || summary_ok env && has_rows ts (batch_rows ts l db))
        then (if close_ok env then Ret true else Raise DatabaseError)
        else (if rollback_ok env && close_ok env then Ret false
              else Raise DatabaseError))
  /\ (aborts l = false -> (0 < saved l)%nat ->
      has_rows ts (batch_rows ts l db) = true)
  /\ (aborts l = true -> (forall sym, db !! (ts, sym) = None) ->
      has_rows ts (batch_rows ts l db) = false).
Proof.
  split; [apply save_to_postgresql_returned |]. split.
  - intros Ha Hs. apply has_rows_spec.
    destruct (saved_first_row l Ha Hs) as (item & k & sr & Hin & Hi).
    destruct (batch_rows_covers ts l db item k sr Ha Hin Hi) as [v Hv].
    eauto.
  - intros Ha Hdb. unfold batch_rows. rewrite Ha.
    destruct (has_rows ts db) eqn:E; [| reflexivity].
    apply has_rows_spec in E as (sym & v & Hv). rewrite Hdb in Hv.
    discriminate.
Qed.

Lemma save_to_postgresql_result_witness :
  aborts three_stocks = true /\
  has_rows run_ts (batch_rows run_ts three_stocks ∅) = false /\
  (save_to_postgresql db_works three_stocks run_ts ∅).1 = Ret false /\
  aborts two_stocks = false /\
  has_rows run_ts (batch_rows run_ts two_stocks ∅) = true /\
  (save_to_postgresql db_works two_stocks run_ts ∅).1 = Ret true /\
  save_to_postgresql db_works (List.tl three_stocks) run_ts ∅
  = (Ret true, ∅).
Proof.
  assert (Ha : aborts three_stocks = true) by (vm_compute; reflexivity).
  assert (Hb : aborts two_stocks = false) by (vm_compute; reflexivity).
  assert (Hs : (0 < saved two_stocks)%nat) by (vm_compute; lia).
  destruct (save_to_postgresql_result db_works three_stocks run_ts ∅)
    as (H1 & _ & H3).
  destruct (save_to_postgresql_result db_works two_stocks run_ts ∅)
    as (H1' & H2' & _).
  specialize (H3 Ha (fun sym => lookup_empty _)).
  specialize (H2' Hb Hs).
  repeat split; try assumption.
Defined.

(** X11. When the summary query fails after a commit, at least one statement
    having succeeded, and the rollback and the [close] calls succeed, the
    call returns [False] although the batch is stored when no statement was
    rejected: the rollback of the handler comes after the commit and
    undoes nothing. *)
Theorem save_to_postgresql_summary_failure env (l : list stock) ts db :
  connect_ok env = true -> commit_ok env = true -> summary_ok env = false ->
  rollback_ok env = true -> close_ok env = true ->
  (0 < saved l)%nat ->
  save_to_postgresql env l ts db = (Ret false, batch_rows ts l db) /\
  (aborts l = false ->
   forall item k sr, In item l -> sent item = Some (Row k sr) ->
     is_Some ((save_to_postgresql env l ts db).2 !! (ts, k))).
Proof.
  intros Hc Hm Hs Hr Hcl Hn.
  assert (E : save_to_postgresql env l ts db
              = (Ret false, batch_rows ts l db)).
  { rewrite (surjective_pairing (save_to_postgresql env l ts db)).
    rewrite save_to_postgresql_returned, save_to_postgresql_stored.
    rewrite Hc, Hm, Hs, Hr, Hcl. cbn [negb andb orb].
    destruct l as [| item l]; [cbn in Hn; lia |]. cbn [length Nat.eqb].
    destruct (saved (item :: l)); [lia | reflexivity]. }
  split; [exact E |].
  intros Ha item k sr Hin Hi. rewrite E. cbn [snd].
  now apply (batch_rows_covers ts l db item k sr).
Qed.

Lemma save_to_postgresql_summary_failure_witness :
  save_to_postgresql db_summary_fails two_stocks run_ts ∅
  = (Ret false, batch_rows run_ts two_stocks ∅)
  /\ size (save_to_postgresql db_summary_fails two_stocks run_ts ∅).2 = 1%nat.
Proof.
  split.
  - apply (save_to_postgresql_summary_failure db_summary_fails two_stocks
             run_ts ∅ eq_refl eq_refl eq_refl eq_refl eq_refl).
    vm_compute. lia.
  - vm_compute. reflexivity.
Defined.

Lemma pending_grows ts (l : list stock) t :
  t ⊆ pending ts l t /\
  (size (pending ts l t) <= size t + length (omap to_row l))%nat.
Proof.
  revert t. induction l as [| item l IH]; intros t.
  - cbn. split; [reflexivity | lia].
  - cbn [pending omap list_omap]. unfold sent.
    destruct (to_row item) as [r |]; cbn [mbind option_bind]; [| apply IH].
    destruct (adapt_insert (symbol item) r) as [| | k sr].
    + destruct (IH t) as [Hs Hn]. split; [exact Hs | cbn [length]; lia].
    + split; [reflexivity | lia].
    + destruct (add_row_grows ts k sr t) as [Hs Hn].
      destruct (IH (add_row ts k sr t)) as [Hs' Hn'].
      split; [now transitivity (add_row ts k sr t) |].
      cbn [length]. lia.
Qed.

(** X12. A call only adds rows: every stored row is kept as it is, and the
    table grows by at most the number of records handed to the insert,
    which bounds the count the function logs as saved. *)
Theorem save_to_postgresql_grows env (l : list stock) ts db :
  db ⊆ (save_to_postgresql env l ts db).2 /\
  (size db <= size (save_to_postgresql env l ts db).2
   <= size db + length (omap to_row l))%nat.
Proof.
  rewrite save_to_postgresql_stored. unfold batch_rows.
  destruct (connect_ok env && commit_ok env), (aborts l);
    try (repeat split; [reflexivity | lia ..]).
  destruct (pending_grows ts l db) as [Hs Hn].
  repeat split; [exact Hs | now apply map_subseteq_size | exact Hn].
Qed.

(** Two tables in which the same symbols are present under the timestamps
    [tsa] and [tsb] gain the same number of rows from a batch. *)
Lemma pending_same_gain tsa tsb (l : list stock) ta tb :
  (forall s, is_Some (ta !! (tsa, s)) <-> is_Some (tb !! (tsb, s))) ->
  (size (pending tsa l ta) + size tb
   = size (pending tsb l tb) + size ta)%nat.
Proof.
  revert ta tb. induction l as [| item l IH]; intros ta tb H.
  - cbn. lia.
  - cbn [pending].
    destruct (sent item) as [[| | k sr] |];
      [now apply IH | lia | | now apply IH].
    assert (G : (size (pending tsa l (add_row tsa k sr ta))
                 + size (add_row tsb k sr tb)
                 = size (pending tsb l (add_row tsb k sr tb))
                   + size (add_row tsa k sr ta))%nat).
    { apply IH. intros s. rewrite !add_row_lookup.
      specialize (H s).
      destruct (decide ((tsa, s) = (tsa, k))) as [Ea | Ea],
               (decide ((tsb, s) = (tsb, k))) as [Eb | Eb];
        try (exfalso; congruence);
        destruct (ta !! (tsa, s)) as [va |], (tb !! (tsb, s)) as [vb |];
        split; intros; eauto; try tauto. }
    revert G. unfold add_row.
    pose proof (H k) as [Hab Hba].
    destruct (ta !! (tsa, k)) as [va |] eqn:Ea,
             (tb !! (tsb, k)) as [vb |] eqn:Eb.
    + lia.
    + destruct Hab as [? ?]; [eauto | discriminate].
    + destruct Hba as [? ?]; [eauto | discriminate].
    + rewrite !map_size_insert_None by assumption. lia.
Qed.

(** X13. Runs are stored independently of each other.  When the same batch is
    saved under two different timestamps, starting from a table with no row
    of either run, the second run stores as many rows as the first, each
    symbol with the same row under both timestamps, and leaves the rows of
    the first run as they are. *)
Theorem save_to_postgresql_two_runs env1 env2 (l : list stock) ts1 ts2 db :
  ts1 <> ts2 ->
  connect_ok env1 && commit_ok env1 = true ->
  connect_ok env2 && commit_ok env2 = true ->
  (forall s, db !! (ts1, s) = None /\ db !! (ts2, s) = None) ->
  let db1 := (save_to_postgresql env1 l ts1 db).2 in
  let db2 := (save_to_postgresql env2 l ts2 db1).2 in
  (size db2 + size db = 2 * size db1)%nat /\
  forall s, db2 !! (ts2, s) = db1 !! (ts1, s) /\
            db2 !! (ts1, s) = db1 !! (ts1, s).
Proof.
  intros Hts H1 H2 Hdb db1 db2. split.
  - subst db1 db2. rewrite !save_to_postgresql_stored, H1, H2.
    unfold batch_rows. destruct (aborts l); [lia |].
    pose proof (pending_same_gain ts2 ts1 l (pending ts1 l db) db) as G.
    rewrite G; [lia |].
    intros s. rewrite pending_lookup.
    destruct (Hdb s) as [-> ->].
    rewrite decide_False by congruence. reflexivity.
  - intros s. subst db1 db2.
    rewrite !save_to_postgresql_stored, H1, H2, !batch_rows_lookup.
    destruct (Hdb s) as [-> ->].
    rewrite ?(bool_decide_false (ts2 = ts1)), ?(bool_decide_false (ts1 = ts2))
      by congruence.
    rewrite ?(bool_decide_true (ts1 = ts1)), ?(bool_decide_true (ts2 = ts2))
      by reflexivity.
    rewrite ?andb_false_r, ?andb_true_r.
    split; [now destruct (negb (aborts l)) |].
    destruct (negb (aborts l)); [| reflexivity].
    now destruct (first_row l s).
Qed.

Lemma save_to_postgresql_two_runs_witness :
  let db1 := (save_to_postgresql db_works two_stocks run_ts ∅).2 in
  let db2 := (save_to_postgresql db_works two_stocks run_ts' db1).2 in
  (size db2 + size (∅ : table) = 2 * size db1)%nat /\ size db2 = 2%nat.
Proof.
  assert (Hts : run_ts <> run_ts') by discriminate.
  destruct (save_to_postgresql_two_runs db_works db_works two_stocks
              run_ts run_ts' ∅ Hts eq_refl eq_refl
              (fun s => conj (lookup_empty _) (lookup_empty _))) as [H _].
  split; [exact H | vm_compute; reflexivity].
Defined.

Lemma row_data_inv (item : stock) (r : row) :
  row_data item = Ret r ->
  row_sector r = sector item /\ row_listed_in r = listed_in item /\
  price_param (current item) = Ret (row_current r) /\
  price_param (change_percent item) = Ret (row_change_percent r).
Proof.
  unfold row_data.
  destruct (price_param (ldcp item)); [| discriminate].
  destruct (price_param (open item)); [| discriminate].
  destruct (price_param (high item)); [| discriminate].
  destruct (price_param (low item)); [| discriminate].
  destruct (price_param (current item)); [| discriminate].
  destruct (price_param (change item)); [| discriminate].
  destruct (price_param (change_percent item)); [| discriminate].
  destruct (volume_param (volume item)); [| discriminate].
  cbn. intros [= <-]. repeat split.
Qed.

(** A record handed to the insert has a symbol of 1 to 20 characters, and
    its [current] parameter is a float that is neither at most 0 nor above
    100000. *)
Lemma to_row_valid (item : stock) (r : row) :
  to_row item = Some r ->
  validate_stock_data item = true /\ row_data item = Ret r /\
  (1 <= String.length (symbol item) <= 20)%nat /\
  exists x, row_current r = Float x /\
    PyFloat.le x (PyFloat.of_int 0) = false /\
    PyFloat.gt x (PyFloat.of_int 100000) = false.
Proof.
  unfold to_row. intros H.
  destruct (validate_stock_data item) eqn:Hv; [| discriminate].
  destruct (row_data item) as [r' | e] eqn:Hd; [| discriminate].
  injection H as ->. repeat split; try reflexivity.
  - rewrite validate_stock_data_unfold in Hv.
    destruct (symbol item); [discriminate | cbn; lia].
  - rewrite validate_stock_data_unfold in Hv.
    apply andb_true_iff in Hv as [Hv _].
    apply andb_true_iff in Hv as [_ Hv]. now apply Nat.leb_le.
  - rewrite validate_stock_data_unfold in Hv.
    apply andb_true_iff in Hv as [_ Hv].
    destruct (row_data_inv item r Hd) as (_ & _ & Hc & _).
    unfold price_param in Hc.
    destruct (PyFloat.float (clean_numeric_value (current item)))
      as [x | e] eqn:Hx; [| discriminate].
    apply negb_true_iff, orb_false_iff in Hv as [Hle Hgt].
    destruct (String.eqb_spec (clean_numeric_value (current item)) "0")
      as [E | E].
    + rewrite E in Hx. vm_compute in Hx. injection Hx as <-.
      vm_compute in Hle. discriminate.
    + cbn in Hc. injection Hc as <-. eauto.
Qed.

Lemma first_row_in (l : list stock) (sym : string) sr :
  first_row l sym = Some sr ->
  exists item, In item l /\ sent item = Some (Row sym sr).
Proof.
  induction l as [| item l IH]; cbn; [discriminate |]. intros H.
  destruct (sent item) as [[| | k sr'] |] eqn:Hr; try discriminate;
    try (destruct (IH H) as (i & Hin & Hi); exists i; auto).
  destruct (String.eqb_spec k sym) as [Hs |].
  - injection H as <-. subst k. exists item. auto.
  - destruct (IH H) as (i & Hin & Hi). exists i. auto.
Qed.

(** A symbol of at most 50 characters is stored as it is. *)
Lemma server_row_symbol (sym : string) r (k : string) sr :
  (String.length sym <= 50)%nat -> server_row sym r = Some (k, sr) ->
  k = sym /\ Some (col_current sr) = to_decimal 10 (row_current r).
Proof.
  intros Hlen. unfold server_row, to_varchar.
  apply Nat.leb_le in Hlen. rewrite Hlen. cbn [mbind option_bind].
  destruct (if (String.length (row_sector r) <=? 100)%nat then _ else _);
    [| discriminate]. cbn [mbind option_bind].
  destruct (if (String.length (row_listed_in r) <=? 50)%nat then _ else _);
    [| discriminate]. cbn [mbind option_bind].
  destruct (to_decimal 10 (row_ldcp r)); [| discriminate].
  destruct (to_decimal 10 (row_open r)); [| discriminate].
  destruct (to_decimal 10 (row_high r)); [| discriminate].
  destruct (to_decimal 10 (row_low r)); [| discriminate].
  destruct (to_decimal 10 (row_current r)); [| discriminate].
  destruct (to_decimal 10 (row_change r)); [| discriminate].
  destruct (to_decimal 6 (row_change_percent r)); [| discriminate].
  destruct (to_bigint (row_volume r)); [| discriminate].
  cbn. intros [= <- <-]. split; reflexivity.
Qed.

Lemma adapt_insert_row (sym : string) r (k : string) sr :
  adapt_insert sym r = Row k sr -> server_row sym r = Some (k, sr).
Proof.
  unfold adapt_insert. destruct (_ || _); [discriminate |].
  destruct (server_row sym r) as [[k' sr'] |]; [| discriminate].
  now intros [= -> ->].
Qed.

Lemma digits_value_nonneg (s : string) (acc : Z) :
  PyFloat.all_digits s = true -> 0 <= acc -> 0 <= PyFloat.digits_value acc s.
Proof.
  revert acc. induction s as [| c s IH]; intros acc H Ha; [exact Ha |].
  cbn in *. apply andb_true_iff in H as [Hc Hs]. apply IH; [exact Hs |].
  unfold PyStr.is_digit in Hc. unfold PyFloat.digit_val.
  apply andb_true_iff in Hc as [Hc _]. apply N.leb_le in Hc. lia.
Qed.

Lemma round_half_away_nonneg (d k : Z) : 0 <= d -> 0 <= round_half_away d k.
Proof.
  intros Hd. unfold round_half_away. destruct (0 <=? k) eqn:Hk.
  - apply Z.leb_le in Hk. apply Z.mul_nonneg_nonneg; [exact Hd |].
    now apply Z.pow_nonneg.
  - assert (Hq : 0 < 10 ^ (- k)) by (apply Z.pow_pos_nonneg; lia).
    pose proof (Z.div_pos d (10 ^ (- k)) Hd Hq). cbv zeta.
    destruct (10 ^ (- k) <=? _); lia.
Qed.

(** A float that is not at most 0 is stored in a [DECIMAL(10, 2)] column
    as NaN or as a number from 0.00 up. *)
Lemma to_decimal_positive (x : spec_float) (d : decimal2) :
  PyFloat.le x (PyFloat.of_int 0) = false ->
  to_decimal 10 (Float x) = Some d ->
  d = NaN \/ exists n, d = Hundredths n /\ 0 <= n < 10 ^ 10.
Proof.
  intros Hle. destruct x as [sg | sg | | sg m e].
  - destruct sg; vm_compute in Hle; discriminate.
  - discriminate.
  - cbn. intros [= <-]. now left.
  - destruct sg; [vm_compute in Hle; discriminate |].
    cbn [to_decimal].
    destruct (PyFloat.digits_and_point m e) as [ds decpt] eqn:E.
    assert (Hds : PyFloat.all_digits ds = true).
    { unfold PyFloat.digits_and_point in E.
      destruct (PyFloat.shortest _ _ _ _ _ _) as [c n].
      injection E as <- _.
      apply significant_ok, decimal_ok. }
    pose proof (round_half_away_nonneg (PyFloat.digits_value 0 ds)
                  (decpt - Z.of_nat (String.length ds) + 2)
                  (digits_value_nonneg ds 0 Hds (Z.le_refl 0))) as Hn.
    destruct (Z.abs _ <? 10 ^ 10) eqn:Hb; [| discriminate].
    intros [= <-]. right. eexists. split; [reflexivity |].
    apply Z.ltb_lt in Hb. lia.
Qed.

(** What is known of a row the server accepts. *)
Lemma sent_row_valid item (k : string) sr :
  sent item = Some (Row k sr) ->
  k = symbol item /\ (1 <= String.length k <= 20)%nat /\
  (col_current sr = NaN \/
   exists n, col_current sr = Hundredths n /\ 0 <= n < 10 ^ 10) /\
  exists r, validate_stock_data item = true /\ row_data item = Ret r /\
    server_row k r = Some (k, sr) /\
    exists x, row_current r = Float x /\
      PyFloat.le x (PyFloat.of_int 0) = false /\
      PyFloat.gt x (PyFloat.of_int 100000) = false.
Proof.
  intros Hs. destruct (sent_to_row item _ Hs) as (r & Hr & Ha).
  destruct (to_row_valid item r Hr) as (Hv & Hd & Hlen & x & Hx & Hle & Hgt).
  apply adapt_insert_row in Ha.
  destruct (server_row_symbol (symbol item) r k sr) as [Hk Hc];
    [lia | exact Ha |].
  subst k. split; [reflexivity |]. split; [exact Hlen |]. split.
  - rewrite Hx in Hc. symmetry in Hc.
    now apply (to_decimal_positive x).
  - exists r. repeat split; try assumption. eauto.
Qed.

(** A key that a committed batch adds is under its timestamp and belongs to
    a statement the server accepted. *)
Lemma batch_rows_written ts (l : list stock) db ts' sym sr :
  db !! (ts', sym) = None ->
  batch_rows ts l db !! (ts', sym) = Some sr ->
  ts' = ts /\ exists item, In item l /\ sent item = Some (Row sym sr).
Proof.
  intros Hnone H. rewrite batch_rows_lookup, Hnone in H.
  destruct (negb (aborts l)); [| discriminate]. cbn [andb] in H.
  destruct (bool_decide_reflect (ts' = ts)) as [-> |]; [| discriminate].
  split; [reflexivity |]. now apply first_row_in.
Qed.

(** X14. Every row a call adds comes from a record of the batch that passed
    validation: it is stored under the timestamp of the call, its symbol
    has 1 to 20 characters, and it is the row the server makes of the
    parameters of the record, of which [current] is a float that is neither
    at most 0 nor above 100000.  The column rounds it to two decimals, so
    that the [current] stored is NaN or a number from 0.00 up, and can be
    0.00. *)
Theorem written_rows_valid env (l : list stock) ts db ts' sym sr :
  db !! (ts', sym) = None ->
  (save_to_postgresql env l ts db).2 !! (ts', sym) = Some sr ->
  ts' = ts /\ (1 <= String.length sym <= 20)%nat /\
  (col_current sr = NaN \/
   exists n, col_current sr = Hundredths n /\ 0 <= n < 10 ^ 10) /\
  exists item r, In item l /\ symbol item = sym /\
    validate_stock_data item = true /\ row_data item = Ret r /\
    server_row sym r = Some (sym, sr) /\
    exists x, row_current r = Float x /\
      PyFloat.le x (PyFloat.of_int 0) = false /\
      PyFloat.gt x (PyFloat.of_int 100000) = false.
Proof.
  intros Hnone H.
  rewrite save_to_postgresql_stored in H.
  destruct (connect_ok env && commit_ok env); [| congruence].
  destruct (batch_rows_written ts l db ts' sym sr Hnone H)
    as (-> & item & Hin & Hs).
  destruct (sent_row_valid item sym sr Hs) as (Hk & Hlen & Hc & r & Hr).
  split; [reflexivity |]. split; [exact Hlen |]. split; [exact Hc |].
  exists item, r. split; [exact Hin |]. split; [now symmetry |]. exact Hr.
Qed.

Lemma written_rows_valid_witness :
  (save_to_postgresql db_works two_stocks run_ts ∅).2 !! (run_ts, "ABC")
  = Some sample_stored
  /\ (1 <= String.length "ABC" <= 20)%nat.
Proof.
  assert (H : (save_to_postgresql db_works two_stocks run_ts ∅).2
              !! (run_ts, "ABC") = Some sample_stored)
    by (vm_compute; reflexivity).
  split; [exact H |].
  destruct (written_rows_valid db_works two_stocks run_ts ∅ run_ts "ABC" _
              (lookup_empty _) H) as (_ & Hlen & _).
  exact Hlen.
Defined.

(** The rounding of the column shows on a [current] of 0.004, which passes
    the validation and is stored as 0.00. *)
Lemma small_current_stored :
  validate_stock_data (sample "0.004" "1000") = true /\
  exists sr,
    (save_to_postgresql db_works (sample "0.004" "1000" :: nil) run_ts ∅).2
      !! (run_ts, "ABC") = Some sr /\
    col_current sr = Hundredths 0.
Proof.
  split; [vm_compute; reflexivity |].
  eexists. split; vm_compute; reflexivity.
Qed.

End BatchFacts.

(** ** The cleaning of a numeric text *)

Section CleaningFacts.

Import PyStr Normalizer Chars.

Lemma replace_absent (old new s : string) :
  contains old s = false -> replace old new s = s.
Proof.
  unfold replace. induction s as [| c s IH]; [reflexivity |].
  cbn [contains replace_from]. intros H.
  apply orb_false_iff in H as [Hp Hc]. rewrite Hp. f_equal. now apply IH.
Qed.

Lemma startswith_dash (c : ascii) (r : string) :
  startswith "-" (String c r) = Ascii.eqb "-" c.
Proof. cbn [startswith]. apply andb_true_r. Qed.

Lemma startswith_dashes (c : ascii) (r : string) :
  startswith "--" (String c r) = Ascii.eqb "-" c && startswith "-" r.
Proof.
  cbn [startswith]. destruct r as [| d r]; [reflexivity |].
  now rewrite andb_true_r.
Qed.

Lemma startswith_three (c : ascii) (r : string) :
  startswith "---" (String c r) = true -> startswith "--" (String c r) = true.
Proof.
  cbn [startswith]. destruct r as [| d [| e w]];
    rewrite ?andb_false_r, ?andb_true_r; try discriminate.
  intros H. apply andb_true_iff in H as [H1 H2].
  apply andb_true_iff in H2 as [H2 _]. now rewrite H1, H2.
Qed.

(** After the doubled dashes have been replaced none is left; and when the
    result starts with a dash, so did the text, with a single one. *)
Lemma no_double_dash (n : nat) (s : string) :
  (String.length s <= n)%nat ->
  contains "--" (replace "--" "0" s) = false /\
  (startswith "-" (replace "--" "0" s) = true ->
   startswith "-" s = true /\ startswith "--" s = false).
Proof.
  unfold replace. revert s. induction n as [| n IH]; intros s Hn.
  - destruct s; [split; [reflexivity | discriminate] | cbn in Hn; lia].
  - destruct s as [| c r]; [split; [reflexivity | discriminate] |].
    cbn [replace_from].
    destruct (startswith "--" (String c r)) eqn:Hp.
    + rewrite startswith_dashes in Hp. apply andb_true_iff in Hp as [_ Hp].
      destruct r as [| d r']; [discriminate |].
      change (Nat.pred (String.length "--")) with 1%nat.
      cbn [replace_from].
      destruct (IH r') as [Hc _]; [cbn in Hn; lia |].
      change ("0" ++ replace_from "--" "0" 0 r')
        with (String "0" (replace_from "--" "0" 0 r')).
      split; [| rewrite startswith_dash; discriminate].
      cbn [contains]. rewrite Hc, startswith_dashes. reflexivity.
    + destruct (IH r) as [Hc Hs]; [cbn in Hn; lia |].
      rewrite startswith_dash. rewrite startswith_dashes in Hp.
      split.
      * cbn [contains]. rewrite Hc, orb_false_r, startswith_dashes.
        destruct (Ascii.eqb "-" c); [| reflexivity]. cbn [andb] in *.
        destruct (startswith "-" (replace_from "--" "0" 0 r)) eqn:E;
          [| reflexivity].
        destruct (Hs eq_refl) as [Hr _]. congruence.
      * intros H. split; [rewrite startswith_dash; exact H | reflexivity].
Qed.

Lemma triple_in_double (s : string) :
  contains "--" s = false -> contains "---" s = false.
Proof.
  induction s as [| c s IH]; [reflexivity |]. cbn [contains]. intros H.
  apply orb_false_iff in H as [Hp Hc]. rewrite (IH Hc), orb_false_r.
  destruct (startswith "---" (String c s)) eqn:E; [| reflexivity].
  apply startswith_three in E. congruence.
Qed.

(** X7. The second dash replacement of [clean_numeric_value],
    [.replace('---', '0')], never changes the text: after
    [.replace('--', '0')] no doubled dash is left. *)
Theorem triple_dash_replace_idle (s : string) :
  replace "---" "0" (replace "--" "0" s) = replace "--" "0" s.
Proof.
  apply replace_absent, triple_in_double.
  exact (proj1 (no_double_dash (String.length s) s (Nat.le_refl _))).
Qed.

Lemma has_char_app (c : ascii) (a b : string) :
  has_char c (a ++ b) = has_char c a || has_char c b.
Proof.
  induction a as [| x a IH]; [reflexivity |].
  change (String x a ++ b) with (String x (a ++ b)).
  cbn [has_char]. now rewrite IH, orb_assoc.
Qed.

(** Replacing leaves a character out when neither the text nor the
    replacement has it. *)
Lemma replace_from_keeps_out (c : ascii) (old new s : string) (k : nat) :
  has_char c new = false -> has_char c s = false ->
  has_char c (replace_from old new k s) = false.
Proof.
  intros Hn. revert k. induction s as [| a s IH]; intros k Hs;
    [reflexivity |].
  cbn [has_char] in Hs. apply orb_false_iff in Hs as [Ha Hs].
  cbn [replace_from]. destruct k as [| k]; [| now apply IH].
  destruct (startswith old (String a s)).
  - rewrite has_char_app, Hn. now apply IH.
  - cbn [has_char]. rewrite Ha. now apply IH.
Qed.

(** Replacing a character by nothing removes it. *)
Lemma replace_from_removes (c : ascii) (s : string) (k : nat) :
  has_char c (replace_from (String c "") "" k s) = false.
Proof.
  revert k. induction s as [| a s IH]; intros k; [reflexivity |].
  cbn [replace_from]. destruct k as [| k]; [| apply IH].
  cbn [startswith]. rewrite andb_true_r.
  destruct (Ascii.eqb_spec c a) as [-> | Hne].
  - rewrite has_char_app. cbn [has_char orb]. apply IH.
  - cbn [has_char]. rewrite IH, orb_false_r.
    apply Ascii.eqb_neq. congruence.
Qed.

Lemma has_char_lstrip (c : ascii) (s : string) :
  has_char c s = false -> has_char c (lstrip s) = false.
Proof.
  induction s as [| a s IH]; [reflexivity |]. cbn [has_char lstrip].
  intros H. destruct (is_space a); [| exact H].
  apply orb_false_iff in H as [_ H]. now apply IH.
Qed.

Lemma has_char_tail (c : ascii) (s : string) :
  has_char c s = false -> has_char c (tail s) = false.
Proof.
  destruct s as [| a s]; [reflexivity |]. cbn [has_char tail].
  intros H. now apply orb_false_iff in H as [_ H].
Qed.

(** X8. The text [clean_numeric_value] hands to [float] holds no comma, space,
    percent sign, parenthesis or dollar sign, whatever the input. *)
Theorem cleaned_has_no_removed_char (value : string) (c : ascii) :
  In c removed_chars -> has_char c (cleaned value) = false.
Proof.
  intros Hin. unfold cleaned, replace.
  assert (H : has_char c
            (replace_from "---" "0" 0 (replace_from "--" "0" 0
              (replace_from rupee "" 0 (replace_from "PKR" "" 0
                (replace_from "Rs." "" 0 (replace_from "$" "" 0
                  (replace_from ")" "" 0 (replace_from "(" "" 0
                    (replace_from "%" "" 0 (replace_from " " "" 0
                      (replace_from "," "" 0 (strip value))))))))))))
            = false).
  { unfold removed_chars in Hin. cbn [In] in Hin.
    repeat (destruct Hin as [<- | Hin]; [
      repeat first [ apply replace_from_removes
                   | apply replace_from_keeps_out; [reflexivity |] ] |]).
    destruct Hin. }
  destruct (startswith "-" _); [| exact H].
  change ("-" ++ ?x) with (String "-" x). cbn [has_char].
  rewrite has_char_lstrip by now apply has_char_tail.
  rewrite orb_false_r. apply Ascii.eqb_neq. intros <-.
  unfold removed_chars in Hin. cbn [In] in Hin.
  repeat (destruct Hin as [Hin | Hin]; [discriminate Hin |]). destruct Hin.
Qed.

Lemma cleaned_has_no_removed_char_witness :
  In ","%char removed_chars /\
  has_char "," (cleaned " Rs. 1,234,567.50 ") = false.
Proof.
  assert (Hin : In ","%char removed_chars) by (left; reflexivity).
  split; [exact Hin |].
  exact (cleaned_has_no_removed_char " Rs. 1,234,567.50 " "," Hin).
Defined.

End CleaningFacts.

(** ** Records of the extraction chain *)

Section RowFacts.

Import PyStr Normalizer Persistence Extraction Rows.

Lemma js_blocked_length (sym : string) :
  js_blocked sym = false -> (1 <= String.length sym <= 20)%nat.
Proof.
  unfold js_blocked. intros H.
  do 8 (apply orb_false_iff in H as [H _]).
  apply orb_false_iff in H as [He H]. apply Nat.ltb_ge in H.
  destruct sym as [| c r]; [discriminate |]. cbn in *. lia.
Qed.

Lemma js_row_symbol (cells : list string) (st : stock) :
  js_row cells = Some st -> js_blocked (symbol st) = false.
Proof.
  unfold js_row, js_keeps. intros H.
  destruct ((9 <=? length cells)%nat); [| discriminate]. cbn [andb] in H.
  destruct (js_blocked (js_cell cells 0 "")) eqn:E; [discriminate |].
  cbn in H. injection H as <-. exact E.
Qed.

Lemma manual_row_symbol (cells : list string) (st : stock) :
  manual_row cells = Some st -> js_blocked (symbol st) = false.
Proof.
  unfold manual_row, manual_keeps. intros H.
  destruct (negb (length cells <? 9)%nat); [| discriminate].
  cbn [andb] in H.
  destruct (manual_blocked (manual_cell cells 0 "")) eqn:E; [discriminate |].
  cbn in H. injection H as <-. cbn [symbol].
  rewrite manual_blocked_js_blocked in E. now apply orb_false_iff in E.
Qed.

Lemma manual_loop_app (l1 l2 : list (res (list string))) :
  manual_loop (l1 ++ l2)%list = (manual_loop l1 ++ manual_loop l2)%list.
Proof.
  induction l1 as [| r l1 IH]; [reflexivity |].
  cbn [manual_loop app].
  destruct (try_except _ _) as [[st |] | e]; rewrite IH; reflexivity.
Qed.

Lemma manual_loop_in (rows : list (res (list string))) (st : stock) :
  In st (manual_loop rows) ->
  exists cells, In (Ret cells) rows /\ manual_row cells = Some st.
Proof.
  induction rows as [| r rows IH]; [intros [] |].
  cbn [manual_loop]. destruct r as [cells | e]; cbn.
  - destruct (manual_row cells) as [st' |] eqn:E.
    + intros [<- | H]; [eauto |].
      destruct (IH H) as (c & Hc & Hr); eauto.
    + intros H. destruct (IH H) as (c & Hc & Hr); eauto.
  - intros H. destruct (IH H) as (c & Hc & Hr); eauto.
Qed.

(** X15. The walk over the rows treats each row on its own: the records come in
    the order of the rows, a row that raises contributes nothing and takes
    nothing away from the others, and there is at most one record per
    row. *)
Theorem manual_loop_rows (l1 l2 : list (res (list string))) (e : pyexn) :
  manual_loop (l1 ++ Raise e :: l2)%list
  = (manual_loop l1 ++ manual_loop l2)%list /\
  manual_loop (l1 ++ l2)%list = (manual_loop l1 ++ manual_loop l2)%list /\
  (length (manual_loop l1) <= length l1)%nat.
Proof.
  split; [| split].
  - now rewrite manual_loop_app.
  - apply manual_loop_app.
  - induction l1 as [| r l1 IH]; [reflexivity |]. cbn [manual_loop].
    destruct (try_except _ _) as [[st |] | x]; cbn [length]; lia.
Qed.

(** A record of either strategy has a symbol the script's filter accepts,
    of 1 to 20 characters. *)
Lemma extracted_symbol_ok (p : page) (l : list stock) (st : stock) :
  extract_correct_psx_data p = Ret (PyList l) -> In st l ->
  js_blocked (symbol st) = false.
Proof.
  unfold extract_correct_psx_data, execute_script.
  assert (Hm : forall l', extract_manual_complete p = Ret (PyList l') ->
                 In st l' -> js_blocked (symbol st) = false).
  { intros l' H Hin. rewrite extract_manual_complete_result in H.
    injection H as <-. unfold manual_result in Hin.
    destruct (manual_rows p) as [rows |]; [| destruct Hin].
    destruct (manual_loop_in rows st Hin) as (cells & _ & Hr).
    now apply (manual_row_symbol cells). }
  destruct (script_run p) as [[tables |] | e]; cbn;
    try (rewrite extract_manual_complete_result; cbn;
         rewrite <- extract_manual_complete_result; now apply Hm).
  destruct (extract_script tables) as [| st0 l0] eqn:E; cbn.
  - rewrite extract_manual_complete_result; cbn;
      rewrite <- extract_manual_complete_result. now apply Hm.
  - intros H Hin. injection H as <-. rewrite <- E in Hin.
    unfold extract_script in Hin.
    destruct (js_target_table tables) as [t |]; [| destruct Hin].
    destruct (tbody t) as [rows |]; [| destruct Hin].
    apply list_elem_of_In, list_elem_of_omap in Hin
      as (cells & _ & Hr).
    now apply (js_row_symbol cells).
Qed.

(** X16. Whatever the browser does, every record [extract_correct_psx_data]
    returns has a symbol of 1 to 20 characters that the script's filter
    accepts, so the symbol test of [validate_stock_data] never rejects an
    extracted record. *)
Theorem extracted_symbols_valid (p : page) (l : list stock) :
  extract_correct_psx_data p = Ret (PyList l) ->
  Forall (fun st => js_blocked (symbol st) = false /\
                    (1 <= String.length (symbol st) <= 20)%nat) l.
Proof.
  intros H. apply List.Forall_forall. intros st Hin.
  pose proof (extracted_symbol_ok p l st H Hin) as Hb.
  split; [exact Hb | now apply js_blocked_length].
Qed.

Lemma extracted_symbols_valid_witness :
  extract_correct_psx_data
    (mk_page (Ret None) (Ret (Ret abc_row :: Raise WebDriverException :: nil)))
  = Ret (PyList (sample "150.25" "1,000" :: nil)) /\
  Forall (fun st => js_blocked (symbol st) = false /\
                    (1 <= String.length (symbol st) <= 20)%nat)
         (sample "150.25" "1,000" :: nil).
Proof.
  assert (H : extract_correct_psx_data
                (mk_page (Ret None)
                   (Ret (Ret abc_row :: Raise WebDriverException :: nil)))
              = Ret (PyList (sample "150.25" "1,000" :: nil))).
  { vm_compute. reflexivity. }
  split; [exact H | exact (extracted_symbols_valid _ _ H)].
Defined.

Lemma cells_agree (cells : list string) (i : nat) (dflt : string) :
  no_blank cells = true -> same_trim cells = true ->
  js_cell cells i dflt = manual_cell cells i dflt.
Proof.
  unfold no_blank, same_trim, js_cell, manual_cell. intros H Ht.
  destruct (nth_error cells i) as [c |] eqn:E; [| reflexivity].
  apply nth_error_In in E.
  rewrite forallb_forall in H, Ht. specialize (H c E). specialize (Ht c E).
  apply String.eqb_eq in Ht. rewrite Ht.
  apply negb_true_iff in H. now rewrite H.
Qed.

(** X17. On a row without blank cells, on whose cells JavaScript's [trim] and
    Python's [strip] give the same text, and whose symbol contains none of
    [Current], [Change], [PSX] and [KSE], the two strategies do the same:
    both pass the row over, or both build the same record.  (On a blank
    cell they differ: the script writes the default, the walk the empty
    text; and so they do on a cell with a separator 28..31 at its ends,
    which only the walk removes.) *)
Theorem strategies_agree (cells : list string) :
  no_blank cells = true ->
  same_trim cells = true ->
  extra_blocked (js_cell cells 0 "") = false ->
  js_row cells = manual_row cells.
Proof.
  intros Hb Ht He. unfold js_row, manual_row, js_keeps, manual_keeps.
  rewrite manual_blocked_js_blocked, <- (cells_agree cells 0 "" Hb Ht), He.
  rewrite orb_false_r, Nat.ltb_antisym, negb_involutive.
  destruct ((9 <=? length cells)%nat && _); [| reflexivity].
  now rewrite !(cells_agree cells _ _ Hb Ht).
Qed.

Lemma strategies_agree_witness :
  js_row abc_row = manual_row abc_row /\
  manual_row abc_row = Some (sample "150.25" "1,000").
Proof.
  split; [apply strategies_agree; reflexivity | reflexivity].
Defined.

(** X18. A row of at most ten cells that either strategy keeps gets the default
    volume ["0"], and the volume stored for it is 0; with nine cells the
    percentage is the default ["0"] as well. *)
Theorem short_row_defaults (cells : list string) (st : stock) :
  (length cells <= 10)%nat ->
  js_row cells = Some st \/ manual_row cells = Some st ->
  volume st = "0" /\
  (length cells = 9%nat -> change_percent st = "0") /\
  forall r, row_data st = Ret r -> row_volume r = 0.
Proof.
  intros Hlen H.
  assert (H10 : nth_error cells 10 = None) by (apply nth_error_None; lia).
  assert (Hv : volume st = "0").
  { destruct H as [H | H]; [unfold js_row in H | unfold manual_row in H];
      [destruct (js_keeps cells) | destruct (manual_keeps cells)];
      try discriminate; injection H as <-; cbn [volume];
      unfold js_cell, manual_cell; now rewrite H10. }
  split; [exact Hv |]. split.
  - intros H9.
    assert (E : nth_error cells 9 = None) by (apply nth_error_None; lia).
    destruct H as [H | H]; [unfold js_row in H | unfold manual_row in H];
      [destruct (js_keeps cells) | destruct (manual_keeps cells)];
      try discriminate; injection H as <-; cbn [change_percent];
      unfold js_cell, manual_cell; now rewrite E.
  - intros r Hr. apply row_data_volume in Hr. rewrite Hv in Hr.
    assert (E : volume_param "0" = Ret 0) by (vm_compute; reflexivity).
    congruence.
Qed.

Lemma short_row_defaults_witness :
  exists st, manual_row abc_row9 = Some st /\ volume st = "0" /\
             change_percent st = "0".
Proof.
  assert (H : manual_row abc_row9
              = Some (mk_stock "ABC" "CEMENT" "KSE100" "149.00" "149.50"
                        "151.00" "148.75" "150.25" "1.25" "0" "0"))
    by reflexivity.
  eexists. split; [exact H |].
  destruct (short_row_defaults abc_row9 _ (le_S _ _ (le_n 9)) (or_intror H))
    as (Hv & Hc & _).
  split; [exact Hv | exact (Hc eq_refl)].
Defined.

End RowFacts.

(** ** One run *)

Section RunFacts.

Import Scheduler Normalizer Persistence Extraction Batch Orchestrator.

Lemma extract_correct_returns (p : page) :
  exists l, extract_correct_psx_data p = Ret (PyList l).
Proof.
  unfold extract_correct_psx_data, execute_script.
  destruct (script_run p) as [[tables |] | e]; cbn;
    try (destruct (extract_script tables); cbn);
    rewrite ?extract_manual_complete_result; eauto.
Qed.

Lemma save_to_postgresql_raises env (l : list stock) ts db (x : pyexn) :
  (save_to_postgresql env l ts db).1 = Raise x ->
  connect_ok env = true /\ rollback_ok env && close_ok env = false.
Proof.
  rewrite save_to_postgresql_returned.
  destruct (Nat.eqb (length l) 0); [discriminate |].
  destruct (connect_ok env); [| discriminate]. cbn [negb orb].
  destruct (commit_ok env && _).
  - destruct (close_ok env); [discriminate |]. now rewrite andb_false_r.
  - destruct (rollback_ok env && close_ok env); [discriminate | easy].
Qed.

(** X19. A run never lets an exception out and always quits the browser it
    started.  It is skipped exactly when the market is closed, and then no
    browser is started and no row is stored.  It fails exactly when the
    market is open and either Chrome can be started in neither way, or
    records were extracted and [save_to_postgresql] raises, which takes a
    rollback or a [close] call that raises: extraction never makes a run
    fail. *)
Theorem run_scraper_outcome (e : run_env) (db : table) :
  quit (run_scraper e db) = started (run_scraper e db) /\
  (status (run_scraper e db) = Skipped <->
   is_market_open (market_clock e) = false) /\
  (is_market_open (market_clock e) = false ->
   run_scraper e db = mk_run_result Skipped db false false) /\
  (status (run_scraper e db) = Failed <->
   is_market_open (market_clock e) = true /\
   ((exists x y, chrome_managed e = Raise x /\ chrome_direct e = Raise y) \/
    (setup_driver e = Ret tt /\
     exists l x, extract_correct_psx_data (the_page e) = Ret (PyList l) /\
       l <> nil /\
       (save_to_postgresql (the_db e) l (scrape_clock e) db).1 = Raise x /\
       connect_ok (the_db e) = true /\
       rollback_ok (the_db e) && close_ok (the_db e) = false))).
Proof.
  assert (Hd : setup_driver e = Ret tt \/
               exists x y, chrome_managed e = Raise x /\
                           chrome_direct e = Raise y /\
                           setup_driver e = Raise y).
  { unfold setup_driver.
    destruct (chrome_managed e) as [[] | x]; cbn [try_except]; [now left |].
    destruct (chrome_direct e) as [[] | y]; [now left | right; eauto]. }
  assert (Hn : setup_driver e = Ret tt ->
               ~ exists x y, chrome_managed e = Raise x /\
                             chrome_direct e = Raise y).
  { unfold setup_driver. intros H (x & y & Hx & Hy).
    rewrite Hx, Hy in H. discriminate. }
  unfold run_scraper.
  destruct (extract_correct_returns (the_page e)) as [l Hl]. rewrite Hl.
  destruct (is_market_open (market_clock e)); cbn [negb].
  - destruct Hd as [Hd | (x & y & Hx & Hy & Hd)]; rewrite Hd.
    + specialize (Hn Hd).
      destruct l as [| st l]; cbn [truthy].
      * cbn. repeat split; try discriminate.
        intros (_ & [H | (_ & l' & x & [= <-] & Hne & _)]);
          [now destruct Hn | now destruct Hne].
      * pose proof (save_to_postgresql_raises (the_db e) (st :: l)
                      (scrape_clock e) db) as Hr.
        destruct (save_to_postgresql (the_db e) (st :: l) (scrape_clock e) db)
          as [[b | x] db'] eqn:Es; cbn [fst] in Hr; cbn.
        -- repeat split; try discriminate.
           intros (_ & [H | (_ & l' & x & [= <-] & _ & Hx & _)]);
             [now destruct Hn | rewrite Es in Hx; discriminate Hx].
        -- destruct (Hr x eq_refl) as [Hc Hb].
           repeat split; try discriminate.
           right. split; [reflexivity |].
           exists (st :: l), x. rewrite Es.
           repeat split; try assumption. discriminate.
    + cbn. repeat split; try discriminate. left. eauto.
  - cbn. repeat split; try discriminate.
    intros (H & _). discriminate.
Qed.

Lemma run_scraper_outcome_witness :
  status (run_scraper
            (mk_run_env monday_1005 run_ts (Ret tt) (Ret tt)
               (mk_page (Ret None) (Ret (Ret Rows.abc_row :: nil)))
               db_lost) ∅) = Failed /\
  status (run_scraper
            (mk_run_env monday_1005 run_ts (Ret tt) (Ret tt)
               (mk_page (Ret None) (Ret (Ret Rows.abc_row :: nil)))
               db_works) ∅) = Saved true.
Proof.
  split; [| vm_compute; reflexivity].
  apply (proj2 (proj2 (proj2 (run_scraper_outcome _ _)))).
  split; [vm_compute; reflexivity |]. right.
  split; [reflexivity |].
  exists (sample "150.25" "1,000" :: nil), DatabaseError.
  repeat split; try discriminate; vm_compute; reflexivity.
Defined.

(** X20. Every row a run adds is stamped with the timestamp taken at the start
    of the run, by a run whose check at the start found the market open (the
    clock is read once for the check and once for the timestamp, and the
    write comes later), carries a symbol of 1 to 20 characters that the
    script's filter accepts, and is the row the server makes of parameters
    whose [current] is a float neither at most 0 nor above 100000: the
    [current] stored, rounded to two decimals, is NaN or a number from 0.00
    up. *)
Theorem run_scraper_rows (e : run_env) (db : table) ts' sym sr :
  db !! (ts', sym) = None ->
  stored (run_scraper e db) !! (ts', sym) = Some sr ->
  ts' = scrape_clock e /\ is_market_open (market_clock e) = true /\
  js_blocked sym = false /\ (1 <= String.length sym <= 20)%nat /\
  (col_current sr = NaN \/
   exists n, col_current sr = Hundredths n /\ 0 <= n < 10 ^ 10) /\
  exists r, server_row sym r = Some (sym, sr) /\
    exists x, row_current r = Float x /\
      PyFloat.le x (PyFloat.of_int 0) = false /\
      PyFloat.gt x (PyFloat.of_int 100000) = false.
Proof.
  intros Hnone. unfold run_scraper.
  destruct (extract_correct_returns (the_page e)) as [l Hl]. rewrite Hl.
  destruct (is_market_open (market_clock e)); cbn [negb stored];
    [| congruence].
  destruct (setup_driver e); cbn [stored]; [| congruence].
  destruct (truthy (PyList l)) as [stocks |] eqn:Ht; cbn [stored];
    [| congruence].
  assert (stocks = l) as -> by (destruct l; [discriminate | now injection Ht]).
  assert (Hst : stored
            (let (r0, db') :=
               save_to_postgresql (the_db e) l (scrape_clock e) db in
             match r0 with
             | Ret success => mk_run_result (Saved success) db' true true
             | Raise _ => mk_run_result Failed db' true true
             end)
          = (save_to_postgresql (the_db e) l (scrape_clock e) db).2).
  { destruct (save_to_postgresql _ _ _ _) as [[b | x] db']; reflexivity. }
  rewrite Hst, save_to_postgresql_stored.
  destruct (connect_ok (the_db e) && commit_ok (the_db e)); [| congruence].
  intros H.
  destruct (batch_rows_written _ l db ts' sym sr Hnone H)
    as (-> & item & Hin & Hs).
  destruct (sent_row_valid item sym sr Hs)
    as (Hk & Hlen & Hc & r & _ & _ & Hr).
  repeat split; try (exact Hc || apply Hlen).
  - subst sym. now apply (extracted_symbol_ok (the_page e) l item).
  - exists r. exact Hr.
Qed.

Lemma run_scraper_rows_witness :
  stored (run_scraper
            (mk_run_env monday_1005 run_ts (Ret tt) (Ret tt)
               (mk_page (Ret None) (Ret (Ret Rows.abc_row :: nil)))
               db_works) ∅) !! (run_ts, "ABC") = Some sample_stored
  /\ js_blocked "ABC" = false.
Proof.
  assert (H : stored (run_scraper
                (mk_run_env monday_1005 run_ts (Ret tt) (Ret tt)
                   (mk_page (Ret None) (Ret (Ret Rows.abc_row :: nil)))
                   db_works) ∅) !! (run_ts, "ABC") = Some sample_stored)
    by (vm_compute; reflexivity).
  split; [exact H |].
  destruct (run_scraper_rows _ ∅ run_ts "ABC" _ (lookup_empty _) H)
    as (_ & _ & Hb & _).
  exact Hb.
Defined.

End RunFacts.
